(** * k8s-client-kit: a shallow embedding and its properties

    The development follows the two source files of the kit:

    - [dynamic-helper.go]: the apply helpers ([ApplyUnstructuredObj],
      [ApplyUnstructuredObjsBatch]), the kind resolver ([GvkToGvr]), the
      connection constructors and [AddScheme];
    - [types.go]: [UnstructuredApplyResult] and the dynamic resource watcher
      ([NewDynamicWatcher], [GetObject], [GetObjectsInNamespace],
      [AddEventHandler]).

    The kit is glue above client-go, apimachinery and controller-runtime.
    Those libraries are not part of the repository: each one appears here
    either as an interface (a type class whose methods the kit calls) or,
    where a property depends on what the library does (the informer's store
    and its event dispatch, the scheme's version list), as a small model of
    the documented behaviour of the library, marked as such. *)

From Stdlib Require Import Ascii.
From stdpp Require Import base option list strings gmap fin_maps.

(** ** Go values shared by both files *)

(** An object held by the informer's store: the document's namespace, name
    and resource version are what the kit and the cache look at. *)
Record Object : Type := mkObject {
  obj_namespace : string;
  obj_name : string;
  resourceVersion : string
}.

(** A Go [interface{}] value of one of the kinds that reach the store's
    [Get]: a plain [string], a [cache.ExplicitKey] (a string type of its
    own), an object with metadata, or a [cache.DeletedFinalStateUnknown]. *)
Inductive any : Type :=
| any_string (s : string)
| any_ExplicitKey (key : string)
| any_Object (obj : Object)
| any_DeletedFinalStateUnknown (key : string) (obj : Object).

(** A Go [error] value; the nil error is [None] of [option error].
    [KeyError] is client-go's [cache.KeyError{Obj, Err}]. *)
Inductive error : Type :=
| errors_New (msg : string)
| errors_Wrap (cause : error) (msg : string)
| external_error (what : string)
| KeyError (obj : any) (cause : error).

(** [err == nil] *)
Definition is_nil {A} (e : option A) : bool :=
  match e with None => true | Some _ => false end.

(** [len(s) > n] on Go strings (byte length). *)
Definition len_gt (s : string) (n : nat) : bool := bool_decide (n < String.length s).

(** ** apimachinery: [schema] *)

Module schema.

Record GroupVersion : Type := mkGV { gv_Group : string; gv_Version : string }.

Record GroupVersionKind : Type :=
  mkGVK { Group : string; Version : string; Kind : string }.

Record GroupVersionResource : Type :=
  mkGVR { gvr_Group : string; gvr_Version : string; Resource : string }.

#[global] Instance GroupVersion_eq_dec : EqDecision GroupVersion.
Proof. solve_decision. Defined.

(** [gvk.GroupVersion()] *)
Definition GroupVersion_of (gvk : GroupVersionKind) : GroupVersion :=
  {| gv_Group := Group gvk; gv_Version := Version gvk |}.

(** [gv.String()]: the group is left out, with its slash, when empty. *)
Definition GroupVersion_String (gv : GroupVersion) : string :=
  if len_gt (gv_Group gv) 0 then gv_Group gv +:+ "/" +:+ gv_Version gv
  else gv_Version gv.

(** [gvk.String()] *)
Definition GroupVersionKind_String (gvk : GroupVersionKind) : string :=
  Group gvk +:+ "/" +:+ Version gvk +:+ ", Kind=" +:+ Kind gvk.

(** The zero value [schema.GroupVersionResource{}]. *)
Definition GroupVersionResource_zero : GroupVersionResource :=
  {| gvr_Group := ""; gvr_Version := ""; Resource := "" |}.

End schema.

(** ** A state monad for code that talks to the cluster

    [World] stands for everything a call can read or change: the remote API
    server and the heap of [*unstructured.Unstructured] objects that the
    caller and the client share. *)

Definition State (World A : Type) : Type := World -> A * World.

Definition ret {World A} (a : A) : State World A := fun w => (a, w).

Definition bind {World A B} (m : State World A) (k : A -> State World B)
  : State World B :=
  fun w => let (a, w') := m w in k a w'.

Notation "'let!' x ':=' m 'in' k" := (bind m (fun x => k))
  (at level 10, x pattern, m at level 100, k at level 200).

Definition evalState {World A} (m : State World A) (w : World) : A := fst (m w).
Definition execState {World A} (m : State World A) (w : World) : World := snd (m w).

(** ** The apply engine ([dynamic-helper.go], first part; [types.go], first part) *)

(** A [*unstructured.Unstructured]: the address of a document on the heap.
    The submitted object and the one stored in a result are the same
    pointer, so they are modelled as the same address. *)
Definition Unstructured_ptr : Type := nat.

(** [client.CreateOptions], with the one field the kit sets. *)
Record CreateOptions : Type := mkCreateOptions { FieldManager : string }.

(** [client.PatchOptions] and [client.UpdateOptions], which the kit never builds. *)
Record PatchOptions : Type := mkPatchOptions { patch_FieldManager : string; patch_Force : bool }.
Record UpdateOptions : Type := mkUpdateOptions { update_FieldManager : string }.

(** The writer half of controller-runtime's [client.Client], as reached
    through [c.GetRuntimeCluster().GetClient()], and the accessor
    [obj.GroupVersionKind()], which reads the document behind the pointer. *)
Class RuntimeClient (World : Type) : Type := {
  Create : Unstructured_ptr -> CreateOptions -> State World (option error);
  Update : Unstructured_ptr -> UpdateOptions -> State World (option error);
  Patch : Unstructured_ptr -> PatchOptions -> State World (option error);
  GroupVersionKind_at : Unstructured_ptr -> World -> schema.GroupVersionKind
}.

(** [type UnstructuredApplyResult struct] *)
Record UnstructuredApplyResult : Type := mkResult {
  Gvk : schema.GroupVersionKind;
  Success : bool;
  Error : option error;
  ResultObject : Unstructured_ptr
}.

Section ApplyEngine.
Context {World : Type} `{RuntimeClient World}.

(** [func (c *GenericK8sClient) ApplyUnstructuredObj]: the fields of the
    result are evaluated after [Create] has returned, [Gvk] included. *)
Definition ApplyUnstructuredObj (obj : Unstructured_ptr) (filedManager : string)
  : State World (UnstructuredApplyResult * option error) :=
  let! err := Create obj {| FieldManager := filedManager |} in
  fun w =>
    (({| Gvk := GroupVersionKind_at obj w;
         Error := err;
         Success := is_nil err;
         ResultObject := obj |}, err), w).

(** The [for _, obj := range objs] loop of [ApplyUnstructuredObjsBatch],
    with the two result slices as accumulators. *)
Fixpoint ApplyUnstructuredObjsBatch_loop
    (objs : list Unstructured_ptr) (fieldManager : string)
    (successfulResults failedResults : list UnstructuredApplyResult)
  : State World (list UnstructuredApplyResult * list UnstructuredApplyResult) :=
  match objs with
  | [] => ret (successfulResults, failedResults)
  | obj :: rest =>
      let! (result, err) := ApplyUnstructuredObj obj fieldManager in
      if negb (is_nil err)
      then ApplyUnstructuredObjsBatch_loop rest fieldManager
             successfulResults (failedResults ++ [result])
      else ApplyUnstructuredObjsBatch_loop rest fieldManager
             (successfulResults ++ [result]) failedResults
  end.

(** [func (c *GenericK8sClient) ApplyUnstructuredObjsBatch]: both named
    results start as nil slices. *)
Definition ApplyUnstructuredObjsBatch
    (objs : list Unstructured_ptr) (fieldManager : string)
  : State World (list UnstructuredApplyResult * list UnstructuredApplyResult) :=
  ApplyUnstructuredObjsBatch_loop objs fieldManager [] [].

(** Applying the objects one at a time, in the given order: what a caller
    gets from [ApplyUnstructuredObj] on each object in turn. *)
Fixpoint apply_each (objs : list Unstructured_ptr) (fieldManager : string)
  : State World (list UnstructuredApplyResult) :=
  match objs with
  | [] => ret []
  | obj :: rest =>
      let! (result, _) := ApplyUnstructuredObj obj fieldManager in
      let! results := apply_each rest fieldManager in
      ret (result :: results)
  end.

End ApplyEngine.

(** ** The kind resolver ([dynamic-helper.go], [GvkToGvr]) *)

(** [metav1.APIResource] and [metav1.APIResourceList], with the fields the
    resolver reads. *)
Record APIResource : Type := mkAPIResource {
  Name : string;
  res_Kind : string;
  Namespaced : bool
}.

Record APIResourceList : Type := mkAPIResourceList {
  list_GroupVersion : string;
  APIResources : list APIResource
}.

(** The discovery half of [kubernetes.Clientset], as reached through
    [c.GetStandardClient().DiscoveryClient]. client-go returns a nil list
    with every error and a list with every nil error, hence the sum. *)
Class DiscoveryClient (World : Type) : Type := {
  ServerResourcesForGroupVersion : string -> State World (error + APIResourceList)
}.

(** The message of the error built when the scan finds nothing. *)
Definition not_found_prefix : string := "未找到目标资源:".

Section KindResolver.
Context {World : Type} `{DiscoveryClient World}.

(** The [for _, resource := range resourcesList.APIResources] loop: it
    returns from the first entry whose [Kind] equals [gvk.Kind]. *)
Fixpoint GvkToGvr_scan (resources : list APIResource) (gvk : schema.GroupVersionKind)
  : option schema.GroupVersionResource :=
  match resources with
  | [] => None
  | resource :: rest =>
      if bool_decide (res_Kind resource = schema.Kind gvk)
      then Some {| schema.gvr_Group := schema.Group gvk;
                   schema.gvr_Version := schema.Version gvk;
                   schema.Resource := Name resource |}
      else GvkToGvr_scan rest gvk
  end.

(** [func (c *GenericK8sClient) GvkToGvr] *)
Definition GvkToGvr (gvk : schema.GroupVersionKind)
  : State World (schema.GroupVersionResource * option error) :=
  let! discovered :=
    ServerResourcesForGroupVersion
      (schema.GroupVersion_String (schema.GroupVersion_of gvk)) in
  match discovered with
  | inl err => ret (schema.GroupVersionResource_zero, Some err)
  | inr resourcesList =>
      match GvkToGvr_scan (APIResources resourcesList) gvk with
      | Some gvr => ret (gvr, None)
      | None =>
          ret (schema.GroupVersionResource_zero,
               Some (errors_New (not_found_prefix +:+ schema.GroupVersionKind_String gvk)))
      end
  end.

End KindResolver.

(** ** The connection manager ([dynamic-helper.go], second part) *)

Definition AuthTypeToken : string := "TOKEN".
Definition AuthTypeKubeConfigBytes : string := "KUBECONFIG_BYTES".
Definition AuthTypeInCluster : string := "IN_CLUSTER".

(** A Go value returned next to an [error]: exactly one of the two is set
    in every return statement of the constructors. *)
Inductive result (A : Type) : Type :=
| Ok (a : A)
| Err (e : error).
Arguments Ok {A} a.
Arguments Err {A} e.

Definition is_Ok {A} (r : result A) : bool :=
  match r with Ok _ => true | Err _ => false end.

(** [clientcmdapi]: the kubeconfig document that token mode fills in. *)
Module clientcmdapi.

Record Cluster : Type := mkCluster {
  Server : string;
  TLSServerName : string;
  InsecureSkipTLSVerify : bool;
  CertificateAuthorityData : list Byte.byte
}.

Record AuthInfo : Type := mkAuthInfo {
  ClientCertificateData : list Byte.byte;
  ClientKeyData : list Byte.byte;
  Token : string
}.

Record Context : Type := mkContext {
  ctx_Cluster : string;
  ctx_AuthInfo : string;
  ctx_Namespace : string
}.

Record Config : Type := mkConfig {
  Clusters : gmap string Cluster;
  AuthInfos : gmap string AuthInfo;
  Contexts : gmap string Context;
  CurrentContext : string
}.

(** [clientcmdapi.NewConfig()] *)
Definition NewConfig : Config :=
  {| Clusters := ∅; AuthInfos := ∅; Contexts := ∅; CurrentContext := "" |}.

End clientcmdapi.

(** [rest.Config], with the transport fields of the spec's data model. *)
Module rest.

Record Config : Type := mkConfig {
  Host : string;
  ServerName : string;
  BearerToken : string;
  Insecure : bool;
  CAData : list Byte.byte
}.

Definition set_ServerName (name : string) (config : Config) : Config :=
  {| Host := Host config; ServerName := name; BearerToken := BearerToken config;
     Insecure := Insecure config; CAData := CAData config |}.

End rest.

(** The functions of client-go, controller-runtime and [os] that the
    constructors call, as an interface. [ServerVersion] is the one that is
    a request to the API server by its signature; what the others need
    from the network is the libraries' business and is not assumed here. *)
Class ClientLibraries : Type := {
  DynamicInterface : Type;
  Clientset : Type;
  RuntimeCluster : Type;
  ClientConfigLoader : Type;
  VersionInfo : Type;
  (** [clientcmd.NewDefaultClientConfig] on the given config with empty
      overrides, then [ClientConfig()] on it. *)
  clientcmd_DefaultClientConfig : clientcmdapi.Config -> result rest.Config;
  clientcmd_NewClientConfigFromBytes : list Byte.byte -> result ClientConfigLoader;
  loader_ClientConfig : ClientConfigLoader -> result rest.Config;
  rest_InClusterConfig : result rest.Config;
  dynamic_NewForConfig : rest.Config -> result DynamicInterface;
  kubernetes_NewForConfig : rest.Config -> result Clientset;
  ServerVersion : Clientset -> result VersionInfo;
  cluster_New : rest.Config -> result RuntimeCluster;
  os_ReadFile : string -> result (list Byte.byte)
}.

(** The library calls a constructor makes, in order. *)
Inductive LibraryCall : Type :=
| call_DefaultClientConfig
| call_NewClientConfigFromBytes
| call_loader_ClientConfig
| call_InClusterConfig
| call_dynamic_NewForConfig
| call_kubernetes_NewForConfig
| call_ServerVersion
| call_cluster_New
| call_ReadFile (path : string).

#[export] Instance LibraryCall_eq_dec : EqDecision LibraryCall.
Proof. solve_decision. Defined.

(** Constructors run library calls until one fails: a journal of the calls
    made, and the value or the error returned. *)
Definition Ctor (A : Type) : Type := list LibraryCall * result A.

Definition ctor_ret {A} (a : A) : Ctor A := ([], Ok a).

Definition ctor_bind {A B} (m : Ctor A) (k : A -> Ctor B) : Ctor B :=
  match m with
  | (calls, Ok a) => let (calls', r) := k a in (calls ++ calls', r)
  | (calls, Err e) => (calls, Err e)
  end.

(** [x, err := f(...); if err != nil { return nil, errors.Wrap(err, msg) }] *)
Definition try_call {A} (call : LibraryCall) (r : result A) (msg : string) : Ctor A :=
  ([call], match r with Ok a => Ok a | Err e => Err (errors_Wrap e msg) end).

Notation "'try!' x ':=' m 'in' k" := (ctor_bind m (fun x => k))
  (at level 10, x pattern, m at level 100, k at level 200).

Definition journal {A} (m : Ctor A) : list LibraryCall := fst m.
Definition outcome {A} (m : Ctor A) : result A := snd m.

(** [strings.TrimSuffix(s, "/")] *)
Fixpoint TrimSuffix_slash (s : string) : string :=
  match s with
  | EmptyString => EmptyString
  | String c rest =>
      match rest with
      | EmptyString => if bool_decide (c = "/"%char) then EmptyString else s
      | String _ _ => String c (TrimSuffix_slash rest)
      end
  end.

(** [sync.Mutex]: held or free. *)
Record Mutex : Type := mkMutex { held : bool }.

(** The context made by [context.WithCancel(context.Background())]; the
    [stopMgr] field is the function that sets [cancelled]. *)
Record CancelContext : Type := mkCancelContext { cancelled : bool }.

Section ConnectionManager.
Context `{ClientLibraries}.

(** [type GenericK8sClient struct] *)
Record GenericK8sClient : Type := mkGenericK8sClient {
  TargetK8sApiServerId : string;
  AuthType : string;
  kubeConfig : option clientcmdapi.Config;
  restConfig : rest.Config;
  runtimeCluster : RuntimeCluster;
  mgrCtx : CancelContext;
  standardClient : Clientset;
  dynamicClient : DynamicInterface;
  schemeLock : Mutex
}.

(** [func newGenericK8sClientWithKubeConfigObj] *)
Definition newGenericK8sClientWithKubeConfigObj
    (id authType : string) (config : clientcmdapi.Config) : Ctor GenericK8sClient :=
  try! restClientConfig :=
    try_call call_DefaultClientConfig (clientcmd_DefaultClientConfig config)
      "使用clientcmdapi.Config方式构建rest client config失败" in
  try! dc :=
    try_call call_dynamic_NewForConfig (dynamic_NewForConfig restClientConfig)
      "创建dynamic client失败" in
  try! sc :=
    try_call call_kubernetes_NewForConfig (kubernetes_NewForConfig restClientConfig)
      "创建standard client失败" in
  try! clusterCli :=
    try_call call_cluster_New (cluster_New restClientConfig)
      "创建runtime-controller.Cluster" in
  ctor_ret {| TargetK8sApiServerId := id;
              AuthType := authType;
              kubeConfig := Some config;
              restConfig := restClientConfig;
              standardClient := sc;
              dynamicClient := dc;
              runtimeCluster := clusterCli;
              mgrCtx := {| cancelled := false |};
              schemeLock := {| held := false |} |}.

(** [func newGenericK8sClientWithRestConfig] *)
Definition newGenericK8sClientWithRestConfig
    (id authType : string) (config : rest.Config) : Ctor GenericK8sClient :=
  try! dc :=
    try_call call_dynamic_NewForConfig (dynamic_NewForConfig config)
      "创建dynamic client失败" in
  try! sc :=
    try_call call_kubernetes_NewForConfig (kubernetes_NewForConfig config)
      "创建standard client失败" in
  try! _ :=
    try_call call_ServerVersion (ServerVersion sc) "无法连接到集群" in
  try! clusterCli :=
    try_call call_cluster_New (cluster_New config)
      "创建runtime-controller.Cluster" in
  ctor_ret {| TargetK8sApiServerId := id;
              AuthType := authType;
              kubeConfig := None;
              restConfig := config;
              standardClient := sc;
              dynamicClient := dc;
              mgrCtx := {| cancelled := false |};
              runtimeCluster := clusterCli;
              schemeLock := {| held := false |} |}.

(** The kubeconfig that [NewGenericK8sClientWithToken] prepares: one
    cluster, one user and one context, all named [cluster]. *)
Definition token_kubeconfig (apiServerUrl token : string) (caPem : list Byte.byte)
    (optionalTLSServerName : string) (skipTLSVerify : bool) : clientcmdapi.Config :=
  let config := clientcmdapi.NewConfig in
  {| clientcmdapi.Clusters :=
       <["cluster" := {| clientcmdapi.Server := apiServerUrl;
                         clientcmdapi.TLSServerName := optionalTLSServerName;
                         clientcmdapi.InsecureSkipTLSVerify := skipTLSVerify;
                         clientcmdapi.CertificateAuthorityData := caPem |}]>
         (clientcmdapi.Clusters config);
     clientcmdapi.AuthInfos :=
       <["cluster" := {| clientcmdapi.ClientCertificateData := [];
                         clientcmdapi.ClientKeyData := [];
                         clientcmdapi.Token := token |}]>
         (clientcmdapi.AuthInfos config);
     clientcmdapi.Contexts :=
       <["cluster" := {| clientcmdapi.ctx_Cluster := "cluster";
                         clientcmdapi.ctx_AuthInfo := "cluster";
                         clientcmdapi.ctx_Namespace := "default" |}]>
         (clientcmdapi.Contexts config);
     clientcmdapi.CurrentContext := "cluster" |}.

(** [func NewGenericK8sClientWithToken] *)
Definition NewGenericK8sClientWithToken
    (id apiServerUrl token : string) (caPem : list Byte.byte)
    (optionalTLSServerName : string) (skipTLSVerify : bool) : Ctor GenericK8sClient :=
  let config :=
    token_kubeconfig apiServerUrl token caPem optionalTLSServerName skipTLSVerify in
  newGenericK8sClientWithKubeConfigObj id AuthTypeToken config.

(** [func NewGenericK8sClientWithSecretDir] *)
Definition NewGenericK8sClientWithSecretDir
    (id authSecretDir apiServerUrl sni : string) : Ctor GenericK8sClient :=
  let dir := TrimSuffix_slash authSecretDir in
  try! caCert :=
    try_call (call_ReadFile (dir +:+ "/ca.crt")) (os_ReadFile (dir +:+ "/ca.crt"))
      ("无法读取CA Cert文件:" +:+ dir +:+ "/ca.crt") in
  try! token :=
    try_call (call_ReadFile (dir +:+ "/token")) (os_ReadFile (dir +:+ "/token"))
      ("无法读取Token文件:" +:+ dir +:+ "token") in
  NewGenericK8sClientWithToken id apiServerUrl (String.string_of_list_byte token) caCert sni false.

(** [func NewGenericK8sClientWithKubeConfigBytes] *)
Definition NewGenericK8sClientWithKubeConfigBytes
    (id : string) (kubeConfig : list Byte.byte) (overrideSNIServerName : string)
  : Ctor GenericK8sClient :=
  try! clientConfig :=
    try_call call_NewClientConfigFromBytes (clientcmd_NewClientConfigFromBytes kubeConfig)
      "无法使用指定KubeConfig bytes创建client config" in
  try! config :=
    try_call call_loader_ClientConfig (loader_ClientConfig clientConfig)
      "无法使用Kubeconfig bytes生成的clientcmd.ClientConfig创建rest client config" in
  let config :=
    if len_gt overrideSNIServerName 1
    then rest.set_ServerName overrideSNIServerName config
    else config in
  newGenericK8sClientWithRestConfig id AuthTypeKubeConfigBytes config.

(** [func NewGenericK8sClientInCluster] *)
Definition NewGenericK8sClientInCluster (id : string) : Ctor GenericK8sClient :=
  try! config :=
    try_call call_InClusterConfig rest_InClusterConfig
      "无法从使用集群内配置(挂载的ServiceAccount token)构建rest client" in
  newGenericK8sClientWithRestConfig id AuthTypeInCluster config.

End ConnectionManager.

(** ** Scheme registration ([dynamic-helper.go], [AddScheme]) *)

(** apimachinery's [runtime.Scheme], as far as [IsVersionRegistered] reads
    it: the slice of observed group/versions. *)
Module runtime.

Record Scheme : Type := mkScheme { observedVersions : list schema.GroupVersion }.

(** The loop of [(s *Scheme) IsVersionRegistered]. *)
Fixpoint IsVersionRegistered_loop
    (observed : list schema.GroupVersion) (version : schema.GroupVersion) : bool :=
  match observed with
  | [] => false
  | observedVersion :: rest =>
      if bool_decide (observedVersion = version) then true
      else IsVersionRegistered_loop rest version
  end.

Definition IsVersionRegistered (s : Scheme) (version : schema.GroupVersion) : bool :=
  IsVersionRegistered_loop (observedVersions s) version.

End runtime.

(** What [AddScheme] does, step by step, for counting and ordering. *)
Inductive SchemeEvent : Type :=
| ev_Lock
| ev_addSchemeFunc (gv : schema.GroupVersion)
| ev_Unlock.

#[export] Instance SchemeEvent_eq_dec : EqDecision SchemeEvent.
Proof. solve_decision. Defined.

(** The mutable objects [AddScheme] reaches from its receiver: the scheme
    behind [c.runtimeCluster.GetScheme()], the mutex behind [c.schemeLock],
    and the record of the steps taken so far. *)
Record SchemeRegistry : Type := mkSchemeRegistry {
  scheme : runtime.Scheme;
  lock : Mutex;
  steps : list SchemeEvent
}.

(** A registration callback [func(s *runtime.Scheme) error]: it may change
    the scheme and returns an error or nil. *)
Definition AddSchemeFunc : Type := runtime.Scheme -> runtime.Scheme * option error.

Definition Mutex_Lock (c : SchemeRegistry) : option SchemeRegistry :=
  if held (lock c) then None
  else Some {| scheme := scheme c; lock := {| held := true |};
               steps := steps c ++ [ev_Lock] |}.

Definition Mutex_Unlock (c : SchemeRegistry) : SchemeRegistry :=
  {| scheme := scheme c; lock := {| held := false |};
     steps := steps c ++ [ev_Unlock] |}.

(** [func (c *GenericK8sClient) AddScheme]. [Lock] on a held mutex never
    returns: the call then has no result ([None]). The error returned by
    [addSchemeFunc] is dropped, as in the source, and the method has no
    return value: its result is the new state alone. *)
Definition AddScheme (gv : schema.GroupVersion) (addSchemeFunc : AddSchemeFunc)
    (c : SchemeRegistry) : option SchemeRegistry :=
  match Mutex_Lock c with
  | None => None
  | Some c =>
      let c :=
        if negb (runtime.IsVersionRegistered (scheme c) gv)
        then
          let (s, _) := addSchemeFunc (scheme c) in
          {| scheme := s; lock := lock c;
             steps := steps c ++ [ev_addSchemeFunc gv] |}
        else c in
      Some (Mutex_Unlock c)
  end.

(** How many times a callback for [gv] has run. *)
Definition executions (gv : schema.GroupVersion) (l : list SchemeEvent) : nat :=
  length (filter (fun e => e = ev_addSchemeFunc gv) l).

(** Two calls in a row, as two callers serialised by the mutex. *)
Definition AddScheme_twice (gv : schema.GroupVersion) (f g : AddSchemeFunc)
    (c : SchemeRegistry) : option SchemeRegistry :=
  match AddScheme gv f c with
  | None => None
  | Some c => AddScheme gv g c
  end.

(** ** The resource watcher ([types.go], second part) *)

Definition WatcherTypeDynamic : string := "Dynamic".
Definition WatcherTypeStandard : string := "Standard".

(** client-go's [cache] package: keys, index functions and the store. *)
Module cache.

(** [cache.NamespaceIndex] *)
Definition NamespaceIndex : string := "namespace".

(** [cache.IndexFunc]: [func(obj interface{}) ([]string, error)] *)
Definition IndexFunc : Type := Object -> list string * option error.

(** [cache.MetaNamespaceIndexFunc]: the object's namespace alone. *)
Definition MetaNamespaceIndexFunc : IndexFunc :=
  fun obj => ([obj_namespace obj], None).

(** [cache.MetaNamespaceKeyFunc]: the key the store files an object under. *)
Definition MetaNamespaceKeyFunc (obj : Object) : string :=
  if len_gt (obj_namespace obj) 0
  then obj_namespace obj +:+ "/" +:+ obj_name obj
  else obj_name obj.

(** [cache.MetaNamespaceKeyFunc] as the store applies it to whatever it is
    handed: an [ExplicitKey] is its own key, an object has the key above,
    and anything else has no metadata and no key. A plain [string] is not an
    [ExplicitKey]: the type assertion [obj.(ExplicitKey)] fails on it. *)
Definition object_has_no_meta : error :=
  errors_New "object has no meta: object does not implement the Object interfaces".

Definition MetaNamespaceKeyFunc_any (obj : any) : result string :=
  match obj with
  | any_ExplicitKey key => Ok key
  | any_Object o => Ok (MetaNamespaceKeyFunc o)
  | any_string _ | any_DeletedFinalStateUnknown _ _ => Err object_has_no_meta
  end.

(** [cache.DeletionHandlingMetaNamespaceKeyFunc]: the key function of the
    indexer of a shared informer. *)
Definition DeletionHandlingMetaNamespaceKeyFunc (obj : any) : result string :=
  match obj with
  | any_DeletedFinalStateUnknown key _ => Ok key
  | _ => MetaNamespaceKeyFunc_any obj
  end.

(** The thread-safe store behind an indexer: key to object. [GetByKey] never
    fails: it returns the item, whether it exists, and a nil error. *)
Definition GetByKey (store : gmap string Object) (key : string)
  : option Object * bool * option error :=
  match store !! key with
  | Some item => (Some item, true, None)
  | None => (None, false, None)
  end.

(** [Get(obj interface{})]: the key function is applied to [obj]; if it
    fails the answer is [nil, false, KeyError{obj, err}], otherwise that of
    [GetByKey] at the key. *)
Definition Get (store : gmap string Object) (obj : any)
  : option Object * bool * option error :=
  match DeletionHandlingMetaNamespaceKeyFunc obj with
  | Err err => (None, false, Some (KeyError obj err))
  | Ok key => GetByKey store key
  end.

(** [Index(indexName, obj)]: the stored objects that share an indexed value
    with [obj] under the named index function. *)
Definition Index (indexers : gmap string IndexFunc) (store : gmap string Object)
    (indexName : string) (obj : Object) : result (list Object) :=
  match indexers !! indexName with
  | None => Err (errors_New ("Index with name " +:+ indexName +:+ " does not exist"))
  | Some indexFunc =>
      match indexFunc obj with
      | (_, Some err) => Err err
      | (indexedValues, None) =>
          Ok (filter
                (fun item => Exists (fun v => v ∈ indexedValues) (fst (indexFunc item)))
                (snd <$> map_to_list store))
      end
  end.

End cache.

(** [workqueue]: the keys waiting in a rate-limited queue, oldest first.
    [Add] is what an enqueue would be; no function of the kit calls it. *)
Module workqueue.

Record RateLimitingQueue : Type := mkQueue { items : list string }.

(** [workqueue.NewRateLimitingQueue(workqueue.DefaultControllerRateLimiter())] *)
Definition NewRateLimitingQueue : RateLimitingQueue := {| items := [] |}.

(** [Add]: a key already waiting is not added again. *)
Definition Add (key : string) (q : RateLimitingQueue) : RateLimitingQueue :=
  if bool_decide (key ∈ items q) then q else {| items := items q ++ [key] |}.

End workqueue.

(** [metav1.ListOptions], with the two selectors a tweak function sets. *)
Record ListOptions : Type := mkListOptions {
  LabelSelector : string;
  FieldSelector : string
}.

(** A transition observed on the watch stream. *)
Inductive WatchEvent : Type :=
| Added (obj : Object)
| Modified (obj : Object)
| Deleted (obj : Object).

Definition event_object (e : WatchEvent) : Object :=
  match e with Added obj | Modified obj | Deleted obj => obj end.

Section ResourceWatcher.
(** [Client] is [dynamic.Interface]; [App] is whatever the caller's
    callbacks can reach and change. The queue is an unexported field of a
    watcher with no accessor, so it is not part of [App]. *)
Context {Client App : Type}.

(** [cache.ResourceEventHandlerFuncs]: each function may be nil. *)
Record ResourceEventHandlerFuncs : Type := mkHandlerFuncs {
  AddFunc : option (Object -> App -> App);
  UpdateFunc : option (Object -> Object -> App -> App);
  DeleteFunc : option (Object -> App -> App)
}.

(** [OnAdd], [OnUpdate], [OnDelete]: call the function unless it is nil. *)
Definition OnAdd (r : ResourceEventHandlerFuncs) (obj : Object) (app : App) : App :=
  match AddFunc r with Some f => f obj app | None => app end.
Definition OnUpdate (r : ResourceEventHandlerFuncs) (oldObj newObj : Object) (app : App) : App :=
  match UpdateFunc r with Some f => f oldObj newObj app | None => app end.
Definition OnDelete (r : ResourceEventHandlerFuncs) (obj : Object) (app : App) : App :=
  match DeleteFunc r with Some f => f obj app | None => app end.

(** What a listener is told about one transition. *)
Inductive Notification : Type :=
| addNotification (newObj : Object)
| updateNotification (oldObj newObj : Object)
| deleteNotification (oldObj : Object).

(** A listener of the informer's processor: a registered handler and the
    notifications handed to it that its own goroutine has not run yet,
    oldest first. *)
Record Listener : Type := mkListener {
  handler : ResourceEventHandlerFuncs;
  pendingNotifications : list Notification
}.

(** The informer returned by [dynamicinformer.NewFilteredDynamicInformer]:
    its arguments, the indexer's store and the listeners of its processor.
    The lister of the informer reads the same store. *)
Record GenericInformer : Type := mkInformer {
  inf_client : Client;
  inf_resource : schema.GroupVersionResource;
  inf_namespace : string;
  inf_resync : Z;
  inf_indexers : gmap string cache.IndexFunc;
  inf_tweakListOptions : option (ListOptions -> ListOptions);
  inf_store : gmap string Object;
  inf_listeners : list Listener
}.

(** [cache.GenericLister]: a view of the informer's indexer for one resource. *)
Record GenericLister : Type := mkLister { lister_resource : schema.GroupVersionResource }.

Definition NewFilteredDynamicInformer (client : Client)
    (resource : schema.GroupVersionResource) (namespace : string) (resync : Z)
    (indexers : gmap string cache.IndexFunc)
    (tweakListOptions : option (ListOptions -> ListOptions)) : GenericInformer :=
  {| inf_client := client; inf_resource := resource; inf_namespace := namespace;
     inf_resync := resync; inf_indexers := indexers;
     inf_tweakListOptions := tweakListOptions;
     inf_store := ∅; inf_listeners := [] |}.

Definition informer_Lister (informer : GenericInformer) : GenericLister :=
  {| lister_resource := inf_resource informer |}.

(** [type K8sResourceWatcher struct]; [stop] is the channel, as the number
    of signals waiting on it ([make(chan struct{})] has none). *)
Record K8sResourceWatcher : Type := mkWatcher {
  Gvr : schema.GroupVersionResource;
  Namespace : string;
  queue : workqueue.RateLimitingQueue;
  informer : GenericInformer;
  lister : GenericLister;
  stop : nat
}.

(** The body of [for k, v := range indexers { defaultIndexers[k] = v }]. *)
Definition merge_indexers (defaultIndexers indexers : gmap string cache.IndexFunc)
  : gmap string cache.IndexFunc :=
  map_fold (fun k v acc => <[k := v]> acc) defaultIndexers indexers.

(** The indexer set [NewDynamicWatcher] hands to the informer. *)
Definition NewDynamicWatcher_indexers (indexers : gmap string cache.IndexFunc)
  : gmap string cache.IndexFunc :=
  let defaultIndexers : gmap string cache.IndexFunc :=
    {[ cache.NamespaceIndex := cache.MetaNamespaceIndexFunc ]} in
  if bool_decide (0 < size indexers)
  then merge_indexers defaultIndexers indexers
  else defaultIndexers.

(** [func NewDynamicWatcher]: the [Gvr] field is not set by the struct
    literal and keeps its zero value. *)
Definition NewDynamicWatcher (client : Client) (resource : schema.GroupVersionResource)
    (namespace : string) (resync : Z) (indexers : gmap string cache.IndexFunc)
    (listOptionsFunc : option (ListOptions -> ListOptions)) : K8sResourceWatcher :=
  let defaultIndexers := NewDynamicWatcher_indexers indexers in
  let informer :=
    NewFilteredDynamicInformer client resource namespace resync defaultIndexers
      listOptionsFunc in
  let queue := workqueue.NewRateLimitingQueue in
  {| Gvr := schema.GroupVersionResource_zero;
     Namespace := namespace;
     queue := queue;
     informer := informer;
     stop := 0;
     lister := informer_Lister informer |}.

(** [lister.ByNamespace(namespace).List(selector)] with the selector
    [labels.Everything()]: all objects for the empty namespace, otherwise
    the namespace index, and a scan of the store if the index fails. *)
Definition ByNamespace_List (informer : GenericInformer) (namespace : string)
  : list Object * option error :=
  let all := snd <$> map_to_list (inf_store informer) in
  if bool_decide (namespace = "") then (all, None)
  else
    match cache.Index (inf_indexers informer) (inf_store informer) cache.NamespaceIndex
            {| obj_namespace := namespace; obj_name := ""; resourceVersion := "" |} with
    | Ok found => (found, None)
    | Err _ => (filter (fun m => obj_namespace m = namespace) all, None)
    end.

(** A read of the local cache through the lister, with what it answered. *)
Inductive CacheRead : Type :=
| read_ByNamespace_List (namespace : string) (answer : list Object * option error).

(** [func (w *K8sResourceWatcher) GetObjectsInNamespace]: the method has
    no result. The call expression is a statement of its own: the listing is
    made and its two values are dropped. The first component records the
    read that was made, the second is what the caller gets. *)
Definition GetObjectsInNamespace (w : K8sResourceWatcher) (namespace : string)
  : list CacheRead * unit :=
  let listed := ByNamespace_List (informer w) namespace in
  ([read_ByNamespace_List namespace listed], tt).

(** The key [GetObject] looks up. *)
Definition GetObject_key (namespace name : string) : string :=
  let key := name in
  if len_gt namespace 0 then namespace +:+ "/" +:+ name else key.

(** [func (w *K8sResourceWatcher) GetObject]: the key, a Go [string], is
    the argument of the indexer's [Get], whose parameter is the object to
    look for ([GetByKey] is the method that takes a key). *)
Definition GetObject (w : K8sResourceWatcher) (namespace name : string)
  : option Object * bool * option error :=
  cache.Get (inf_store (informer w)) (any_string (GetObject_key namespace name)).

Definition with_listeners (informer : GenericInformer) (store : gmap string Object)
    (listeners : list Listener) : GenericInformer :=
  {| inf_client := inf_client informer; inf_resource := inf_resource informer;
     inf_namespace := inf_namespace informer; inf_resync := inf_resync informer;
     inf_indexers := inf_indexers informer;
     inf_tweakListOptions := inf_tweakListOptions informer;
     inf_store := store;
     inf_listeners := listeners |}.

(** The informer's [AddEventHandler]: a new listener joins the processor.
    On a running informer the new listener is first handed an add
    notification for every item of the store; an informer that has not run
    has an empty store, so the same holds there. *)
Definition informer_AddEventHandler (h : ResourceEventHandlerFuncs)
    (informer : GenericInformer) : GenericInformer :=
  with_listeners informer (inf_store informer)
    (inf_listeners informer
       ++ [ {| handler := h;
               pendingNotifications :=
                 addNotification <$> (snd <$> map_to_list (inf_store informer)) |} ]).

Definition with_informer (w : K8sResourceWatcher) (informer : GenericInformer)
  : K8sResourceWatcher :=
  {| Gvr := Gvr w; Namespace := Namespace w; queue := queue w;
     informer := informer; lister := lister w; stop := stop w |}.

(** [func (w *K8sResourceWatcher) AddEventHandler]: the three callbacks are
    registered as they are. The block that would have wrapped them with
    [queue.Add(key)] is commented out in the source and is not modelled. *)
Definition AddEventHandler (w : K8sResourceWatcher)
    (addHandler delHandler : option (Object -> App -> App))
    (updateHandler : option (Object -> Object -> App -> App)) : K8sResourceWatcher :=
  with_informer w
    (informer_AddEventHandler
       {| AddFunc := addHandler; UpdateFunc := updateHandler; DeleteFunc := delHandler |}
       (informer w)).

(** A listener running one notification: the matching callback of its
    handler, unless that callback is nil. *)
Definition notify (n : Notification) (h : ResourceEventHandlerFuncs) (app : App) : App :=
  match n with
  | addNotification obj => OnAdd h obj app
  | updateNotification oldObj newObj => OnUpdate h oldObj newObj app
  | deleteNotification obj => OnDelete h obj app
  end.

(** The informer's reading of one transition against its store: for an
    added or modified object, an update if the store has the key and an add
    otherwise; for a deleted object, a delete if the store has the key, and
    nothing at all if it has not (the delta queue drops such a delete). *)
Definition classify (e : WatchEvent) (store : gmap string Object) : option Notification :=
  match e with
  | Added obj | Modified obj =>
      match store !! cache.MetaNamespaceKeyFunc obj with
      | Some old => Some (updateNotification old obj)
      | None => Some (addNotification obj)
      end
  | Deleted obj =>
      match store !! cache.MetaNamespaceKeyFunc obj with
      | Some _ => Some (deleteNotification obj)
      | None => None
      end
  end.

Definition apply_event (e : WatchEvent) (store : gmap string Object)
  : gmap string Object :=
  match e with
  | Added obj | Modified obj => <[cache.MetaNamespaceKeyFunc obj := obj]> store
  | Deleted obj => delete (cache.MetaNamespaceKeyFunc obj) store
  end.

(** The processor hands a notification to a listener: it joins the
    listener's pending ones. *)
Definition hand (n : Notification) (l : Listener) : Listener :=
  {| handler := handler l; pendingNotifications := pendingNotifications l ++ [n] |}.

(** A running watcher observing one transition: the store changes and every
    listener is handed the notification. No callback runs here: each
    listener runs its callbacks in a goroutine of its own (see
    [run_listener]). The watcher's own fields other than the informer are
    not touched, nor is anything the caller can reach. *)
Definition deliver (e : WatchEvent) (st : K8sResourceWatcher * App)
  : K8sResourceWatcher * App :=
  let (w, app) := st in
  match classify e (inf_store (informer w)) with
  | None => (w, app)
  | Some n =>
      (with_informer w
         (with_listeners (informer w) (apply_event e (inf_store (informer w)))
            (hand n <$> inf_listeners (informer w))),
       app)
  end.

(** The goroutine of the listener at position [i] takes the oldest of its
    pending notifications and runs the callback for it; with nothing
    pending, or no such listener, nothing happens. *)
Definition run_listener (i : nat) (st : K8sResourceWatcher * App)
  : K8sResourceWatcher * App :=
  let (w, app) := st in
  match inf_listeners (informer w) !! i with
  | Some l =>
      match pendingNotifications l with
      | n :: rest =>
          (with_informer w
             (with_listeners (informer w) (inf_store (informer w))
                (<[i := {| handler := handler l; pendingNotifications := rest |}]>
                   (inf_listeners (informer w)))),
           notify n (handler l) app)
      | [] => (w, app)
      end
  | None => (w, app)
  end.

(** What can happen to a watcher after its construction: the caller
    registers handlers or reads the cache, the informer observes a
    transition, a listener runs a callback. A run is one interleaving of
    these; the order in which different listeners run is not fixed. *)
Inductive WatcherStep : Type :=
| call_AddEventHandler (addHandler delHandler : option (Object -> App -> App))
    (updateHandler : option (Object -> Object -> App -> App))
| call_GetObjectsInNamespace (namespace : string)
| call_GetObject (namespace name : string)
| observe (e : WatchEvent)
| listener_runs (i : nat).

Definition step (s : WatcherStep) (st : K8sResourceWatcher * App)
  : K8sResourceWatcher * App :=
  match s with
  | call_AddEventHandler a d u => (AddEventHandler (fst st) a d u, snd st)
  | call_GetObjectsInNamespace namespace =>
      let _ := GetObjectsInNamespace (fst st) namespace in st
  | call_GetObject namespace name =>
      let _ := GetObject (fst st) namespace name in st
  | observe e => deliver e st
  | listener_runs i => run_listener i st
  end.

Definition run (steps : list WatcherStep) (st : K8sResourceWatcher * App)
  : K8sResourceWatcher * App :=
  foldl (fun st s => step s st) st steps.

(** The transitions observed during a run, in order. *)
Definition observed (steps : list WatcherStep) : list WatchEvent :=
  omap (fun s => match s with observe e => Some e | _ => None end) steps.

End ResourceWatcher.

Arguments ResourceEventHandlerFuncs : clear implicits.
Arguments Listener : clear implicits.
Arguments GenericInformer : clear implicits.
Arguments K8sResourceWatcher : clear implicits.
Arguments WatcherStep : clear implicits.

(** ** Statements of the specification that the code does not meet as written

    Each is the specification's sentence at one input; the properties
    section shows an input where it fails and proves what holds instead. *)

(** Two calls of [AddScheme] for the same group/version run a registration
    callback exactly once. *)
Definition callback_runs_once (gv : schema.GroupVersion) (f g : AddSchemeFunc)
    (c : SchemeRegistry) : Prop :=
  exists c', AddScheme_twice gv f g c = Some c' /\
             executions gv (steps c') = executions gv (steps c) + 1.

(** Delivering a transition to a watcher, and letting the listeners named in
    [schedule] run their callbacks for it, puts the key of the affected
    object on the watcher's work queue. *)
Definition delivery_enqueues_key {Client App : Type}
    (w : K8sResourceWatcher Client App) (app : App) (e : WatchEvent)
    (schedule : list nat) : Prop :=
  cache.MetaNamespaceKeyFunc (event_object e)
    ∈ workqueue.items
        (queue (run (observe e :: (listener_runs <$> schedule)) (w, app)).1).

(** Token-mode construction returns a client. The specification says so of
    every server, reachable or not. *)
Definition token_mode_succeeds `{ClientLibraries}
    (id apiServerUrl token : string) (caPem : list Byte.byte)
    (optionalTLSServerName : string) (skipTLSVerify : bool) : Prop :=
  is_Ok (outcome (NewGenericK8sClientWithToken id apiServerUrl token caPem
                    optionalTLSServerName skipTLSVerify)) = true.

(** The indexer set handed to the informer has the default namespace index,
    which files each object under its namespace alone, and every index
    function of the caller under the caller's name for it. *)
Definition has_default_namespace_index {Client App : Type}
    (w : K8sResourceWatcher Client App) (indexers : gmap string cache.IndexFunc) : Prop :=
  (exists indexFunc,
     inf_indexers (informer w) !! cache.NamespaceIndex = Some indexFunc /\
     forall obj, indexFunc obj = ([obj_namespace obj], None)) /\
  (forall name indexFunc,
     indexers !! name = Some indexFunc ->
     inf_indexers (informer w) !! name = Some indexFunc).

(** ** Concrete clusters, libraries and watchers used to run the definitions *)

Module Demo.

(** A cluster that refuses to create the objects it finds invalid and
    those it already holds. *)
Record World : Type := mkWorld {
  stored : list Unstructured_ptr;
  invalid : list Unstructured_ptr
}.

Definition demo_Create (obj : Unstructured_ptr) (opts : CreateOptions)
  : State World (option error) :=
  fun w =>
    if bool_decide (obj ∈ invalid w) then (Some (external_error "Invalid"), w)
    else if bool_decide (obj ∈ stored w) then (Some (external_error "AlreadyExists"), w)
    else (None, {| stored := stored w ++ [obj]; invalid := invalid w |}).

Definition deployment : schema.GroupVersionKind :=
  {| schema.Group := "apps"; schema.Version := "v1"; schema.Kind := "Deployment" |}.

#[global] Instance demo_client : RuntimeClient World := {|
  Create := demo_Create;
  Update := fun _ _ w => (None, w);
  Patch := fun _ _ w => (None, w);
  GroupVersionKind_at := fun _ _ => deployment
|}.

Definition empty_cluster : World := {| stored := []; invalid := [11] |}.

(** Discovery that knows the [apps/v1] group/version only. *)
Definition apps_v1 : APIResourceList :=
  {| list_GroupVersion := "apps/v1";
     APIResources :=
       [ {| Name := "daemonsets"; res_Kind := "DaemonSet"; Namespaced := true |};
         {| Name := "deployments"; res_Kind := "Deployment"; Namespaced := true |};
         {| Name := "deployments/status"; res_Kind := "Deployment"; Namespaced := true |} ] |}.

Definition discovery_refused : error := external_error "the server could not find the requested resource".

#[global] Instance demo_discovery : DiscoveryClient World := {|
  ServerResourcesForGroupVersion := fun groupVersion w =>
    if bool_decide (groupVersion = "apps/v1") then (inr apps_v1, w)
    else (inl discovery_refused, w)
|}.

Definition cronjob : schema.GroupVersionKind :=
  {| schema.Group := "batch"; schema.Version := "v1"; schema.Kind := "CronJob" |}.

Definition replicaset : schema.GroupVersionKind :=
  {| schema.Group := "apps"; schema.Version := "v1"; schema.Kind := "ReplicaSet" |}.

(** Libraries whose local steps all succeed, in front of a server that
    nothing can reach: the version query fails for every client. *)
Definition connection_refused : error := external_error "dial tcp: connection refused".

Definition rest_config_of (config : clientcmdapi.Config) : result rest.Config :=
  match clientcmdapi.Clusters config !! clientcmdapi.CurrentContext config,
        clientcmdapi.AuthInfos config !! clientcmdapi.CurrentContext config with
  | Some cluster, Some user =>
      Ok {| rest.Host := clientcmdapi.Server cluster;
            rest.ServerName := clientcmdapi.TLSServerName cluster;
            rest.BearerToken := clientcmdapi.Token user;
            rest.Insecure := clientcmdapi.InsecureSkipTLSVerify cluster;
            rest.CAData := clientcmdapi.CertificateAuthorityData cluster |}
  | _, _ => Err (external_error "invalid configuration")
  end.

Definition mounted_config : rest.Config :=
  {| rest.Host := "https://10.96.0.1:443"; rest.ServerName := "";
     rest.BearerToken := "sa-token"; rest.Insecure := false; rest.CAData := [] |}.

Definition unreachable_server : ClientLibraries := {|
  DynamicInterface := rest.Config;
  Clientset := rest.Config;
  RuntimeCluster := rest.Config;
  ClientConfigLoader := list Byte.byte;
  VersionInfo := string;
  clientcmd_DefaultClientConfig := rest_config_of;
  clientcmd_NewClientConfigFromBytes := fun bytes => Ok bytes;
  loader_ClientConfig := fun _ => Ok mounted_config;
  rest_InClusterConfig := Ok mounted_config;
  dynamic_NewForConfig := fun config => Ok config;
  kubernetes_NewForConfig := fun config => Ok config;
  ServerVersion := fun _ => Err connection_refused;
  cluster_New := fun config => Ok config;
  os_ReadFile := fun _ => Ok []
|}.

(** A group/version of a custom resource, a callback that registers it,
    and a callback that fails before registering anything. *)
Definition widgets_v1 : schema.GroupVersion :=
  {| schema.gv_Group := "example.com"; schema.gv_Version := "v1" |}.

Definition AddToScheme (gv : schema.GroupVersion) : AddSchemeFunc :=
  fun s => ({| runtime.observedVersions := runtime.observedVersions s ++ [gv] |}, None).

Definition broken_AddToScheme : AddSchemeFunc :=
  fun s => (s, Some (external_error "conflicting type registration")).

Definition fresh_registry : SchemeRegistry :=
  {| scheme := {| runtime.observedVersions := [] |};
     lock := {| held := false |};
     steps := [] |}.

(** A watcher of pods in one namespace whose callbacks keep a log. *)
Definition pods : schema.GroupVersionResource :=
  {| schema.gvr_Group := ""; schema.gvr_Version := "v1"; schema.Resource := "pods" |}.

Definition web : Object :=
  {| obj_namespace := "team-a"; obj_name := "web"; resourceVersion := "1" |}.

Definition web' : Object :=
  {| obj_namespace := "team-a"; obj_name := "web"; resourceVersion := "2" |}.

Definition log_add (obj : Object) (log : list string) : list string :=
  log ++ ["add " +:+ cache.MetaNamespaceKeyFunc obj].
Definition log_delete (obj : Object) (log : list string) : list string :=
  log ++ ["delete " +:+ cache.MetaNamespaceKeyFunc obj].
Definition log_update (oldObj newObj : Object) (log : list string) : list string :=
  log ++ ["update " +:+ cache.MetaNamespaceKeyFunc newObj].

Definition new_watcher (indexers : gmap string cache.IndexFunc)
  : K8sResourceWatcher unit (list string) :=
  NewDynamicWatcher tt pods "team-a" 30 indexers None.

Definition watcher : K8sResourceWatcher unit (list string) :=
  AddEventHandler (new_watcher ∅) (Some log_add) (Some log_delete) (Some log_update).

(** An index function of a caller, filed under the name of the default one. *)
Definition by_name : cache.IndexFunc := fun obj => ([obj_name obj], None).

Definition callers_indexers : gmap string cache.IndexFunc :=
  {[ cache.NamespaceIndex := by_name ]}.

End Demo.

(** ** Further definitions used by the properties beyond the specification *)

(** [n] calls of [AddScheme] in a row, each for the same group/version and
    with the same callback. *)
Fixpoint AddScheme_repeat (n : nat) (gv : schema.GroupVersion) (f : AddSchemeFunc)
    (c : SchemeRegistry) : option SchemeRegistry :=
  match n with
  | 0 => Some c
  | S n =>
      match AddScheme gv f c with
      | None => None
      | Some c => AddScheme_repeat n gv f c
      end
  end.




(** A client as the constructors leave it: both clients and the runtime
    cluster were made from the client's own rest config, the scheme mutex is
    free and the manager context is not cancelled. *)
Definition as_constructed `{ClientLibraries} (c : GenericK8sClient) : Prop :=
  dynamic_NewForConfig (restConfig c) = Ok (dynamicClient c) /\
  kubernetes_NewForConfig (restConfig c) = Ok (standardClient c) /\
  cluster_New (restConfig c) = Ok (runtimeCluster c) /\
  held (schemeLock c) = false /\
  cancelled (mgrCtx c) = false.

(** Libraries in front of a server that answers, with a mounted secret
    directory. *)
Module Mounted.

Definition ca_bytes : list Byte.byte := [Byte.x2d; Byte.x2d].
Definition token_bytes : list Byte.byte := [Byte.x74; Byte.x6f; Byte.x6b].

Definition files : gmap string (list Byte.byte) :=
  {[ "/var/run/secrets/ca.crt" := ca_bytes;
     "/var/run/secrets/token" := token_bytes ]}.

Definition ReadFile (path : string) : result (list Byte.byte) :=
  match files !! path with
  | Some bytes => Ok bytes
  | None => Err (external_error "no such file or directory")
  end.

Definition reachable_server : ClientLibraries := {|
  DynamicInterface := rest.Config;
  Clientset := rest.Config;
  RuntimeCluster := rest.Config;
  ClientConfigLoader := list Byte.byte;
  VersionInfo := string;
  clientcmd_DefaultClientConfig := Demo.rest_config_of;
  clientcmd_NewClientConfigFromBytes := fun bytes => Ok bytes;
  loader_ClientConfig := fun _ => Ok Demo.mounted_config;
  rest_InClusterConfig := Ok Demo.mounted_config;
  dynamic_NewForConfig := fun config => Ok config;
  kubernetes_NewForConfig := fun config => Ok config;
  ServerVersion := fun _ => Ok "v1.27.3";
  cluster_New := fun config => Ok config;
  os_ReadFile := ReadFile
|}.

(** Libraries of the generation whose [cluster.New] builds its REST mapper
    by discovery at once, in front of a server that nothing can reach:
    every call that goes to the server fails, every local step succeeds. *)
Definition eager_discovery : ClientLibraries := {|
  DynamicInterface := rest.Config;
  Clientset := rest.Config;
  RuntimeCluster := rest.Config;
  ClientConfigLoader := list Byte.byte;
  VersionInfo := string;
  clientcmd_DefaultClientConfig := Demo.rest_config_of;
  clientcmd_NewClientConfigFromBytes := fun bytes => Ok bytes;
  loader_ClientConfig := fun _ => Ok Demo.mounted_config;
  rest_InClusterConfig := Ok Demo.mounted_config;
  dynamic_NewForConfig := fun config => Ok config;
  kubernetes_NewForConfig := fun config => Ok config;
  ServerVersion := fun _ => Err Demo.connection_refused;
  cluster_New := fun _ => Err Demo.connection_refused;
  os_ReadFile := ReadFile
|}.

(** A callback written for another group/version than the one it is
    registered under. *)
Definition gadgets_v1 : schema.GroupVersion :=
  {| schema.gv_Group := "example.org"; schema.gv_Version := "v1" |}.

Definition db : Object :=
  {| obj_namespace := "team-a"; obj_name := "db"; resourceVersion := "7" |}.

Definition node1 : Object :=
  {| obj_namespace := ""; obj_name := "node-1"; resourceVersion := "3" |}.

End Mounted.

(** * Properties *)

(** ** The apply engine *)

Section ApplyEngineFacts.
Context {World : Type} `{RuntimeClient World}.

Lemma ApplyUnstructuredObj_eq (obj : Unstructured_ptr) (fm : string) (w : World) :
  ApplyUnstructuredObj obj fm w =
    let (err, w1) := Create obj {| FieldManager := fm |} w in
    (({| Gvk := GroupVersionKind_at obj w1; Success := is_nil err;
         Error := err; ResultObject := obj |}, err), w1).
Proof.
  unfold ApplyUnstructuredObj, bind.
  destruct (Create obj {| FieldManager := fm |} w) as [err w1]. reflexivity.
Qed.

(** The error returned next to a result is the one stored in it, and the
    result's flag says whether it is nil. *)
Lemma ApplyUnstructuredObj_result (obj : Unstructured_ptr) (fm : string) (w : World) :
  let '((result, err), _) := ApplyUnstructuredObj obj fm w in
  Error result = err /\ Success result = is_nil err /\ ResultObject result = obj.
Proof.
  rewrite ApplyUnstructuredObj_eq.
  destruct (Create obj {| FieldManager := fm |} w) as [err w1]. simpl. auto.
Qed.

(** The loop adds, to each accumulator, the results of its kind, in the
    order in which one-at-a-time application produces them. *)
Lemma ApplyUnstructuredObjsBatch_loop_spec (objs : list Unstructured_ptr) (fm : string) :
  forall (acc_ok acc_failed : list UnstructuredApplyResult) (w : World),
    ApplyUnstructuredObjsBatch_loop objs fm acc_ok acc_failed w =
      let (results, w') := apply_each objs fm w in
      ((acc_ok ++ filter (fun r => Success r = true) results,
        acc_failed ++ filter (fun r => Success r = false) results), w').
Proof.
  induction objs as [|obj rest IH]; intros acc_ok acc_failed w; simpl.
  - unfold ret. rewrite !app_nil_r. reflexivity.
  - unfold bind, ret.
    pose proof (ApplyUnstructuredObj_result obj fm w) as Hres.
    destruct (ApplyUnstructuredObj obj fm w) as [[result err] w1].
    destruct Hres as (_ & Hflag & _).
    destruct (is_nil err) eqn:Hnil; simpl; rewrite IH;
      destruct (apply_each rest fm w1) as [results w2].
    + rewrite filter_cons_True by (rewrite Hflag; reflexivity).
      rewrite filter_cons_False by (rewrite Hflag; discriminate).
      rewrite <- app_assoc. reflexivity.
    + rewrite filter_cons_False by (rewrite Hflag; discriminate).
      rewrite filter_cons_True by (rewrite Hflag; reflexivity).
      rewrite <- app_assoc. reflexivity.
Qed.

(** One-at-a-time application yields one result per object, for that
    object, in order. *)
Lemma apply_each_objects (objs : list Unstructured_ptr) (fm : string) :
  forall w : World, ResultObject <$> (apply_each objs fm w).1 = objs.
Proof.
  induction objs as [|obj rest IH]; intros w; simpl; [reflexivity|].
  unfold bind, ret.
  pose proof (ApplyUnstructuredObj_result obj fm w) as Hres.
  destruct (ApplyUnstructuredObj obj fm w) as [[result err] w1].
  destruct Hres as (_ & _ & Hobj).
  specialize (IH w1).
  destruct (apply_each rest fm w1) as [results w2]. cbn [fst] in *.
  rewrite fmap_cons, Hobj, IH. reflexivity.
Qed.

End ApplyEngineFacts.

(** A list in which exactly the entry at [k] is flagged [false] splits into
    that entry and all the others. *)
Lemma filter_all_true {A} (b : A -> bool) (l : list A) :
  (forall i y, l !! i = Some y -> b y = true) ->
  filter (fun y => b y = false) l = [] /\ filter (fun y => b y = true) l = l.
Proof.
  induction l as [|a l IH]; intros Hall; [split; reflexivity|].
  assert (Ha : b a = true) by exact (Hall 0 a eq_refl).
  destruct IH as [IH1 IH2]; [intros i y Hy; exact (Hall (S i) y Hy)|].
  rewrite filter_cons_False by (rewrite Ha; discriminate).
  rewrite filter_cons_True by exact Ha.
  rewrite IH1, IH2. split; reflexivity.
Qed.

Lemma filter_single_false {A} (b : A -> bool) (l : list A) :
  forall (k : nat) (x : A),
    l !! k = Some x ->
    (forall i y, l !! i = Some y -> (b y = false <-> i = k)) ->
    filter (fun y => b y = false) l = [x] /\
    length (filter (fun y => b y = true) l) = length l - 1.
Proof.
  induction l as [|a l IH]; intros k x Hk Hone; [discriminate|].
  destruct k as [|k]; simpl in Hk.
  - injection Hk as ->.
    assert (Hx : b x = false) by (apply (Hone 0 x eq_refl); reflexivity).
    destruct (filter_all_true b l) as [H1 H2].
    { intros i y Hy. destruct (b y) eqn:Hb; [reflexivity|].
      apply (Hone (S i) y Hy) in Hb. discriminate. }
    rewrite filter_cons_True by exact Hx.
    rewrite filter_cons_False by (rewrite Hx; discriminate).
    rewrite H1, H2. simpl. split; [reflexivity|lia].
  - assert (Ha : b a = true).
    { destruct (b a) eqn:Hb; [reflexivity|].
      apply (Hone 0 a eq_refl) in Hb. discriminate. }
    destruct (IH k x Hk) as [H1 H2].
    { intros i y Hy. rewrite (Hone (S i) y Hy). split; [intros [= ->]|intros ->]; reflexivity. }
    rewrite filter_cons_False by (rewrite Ha; discriminate).
    rewrite filter_cons_True by exact Ha.
    rewrite H1. simpl. rewrite H2. split; [reflexivity|].
    apply lookup_lt_Some in Hk. lia.
Qed.

Lemma length_filter_bool {A} (b : A -> bool) (l : list A) :
  length (filter (fun y => b y = true) l) + length (filter (fun y => b y = false) l)
  = length l.
Proof.
  induction l as [|a l IH]; [reflexivity|].
  destruct (b a) eqn:Ha.
  - rewrite filter_cons_True by exact Ha.
    rewrite filter_cons_False by (rewrite Ha; discriminate). simpl. lia.
  - rewrite filter_cons_False by (rewrite Ha; discriminate).
    rewrite filter_cons_True by exact Ha. simpl. lia.
Qed.

Section ApplyEngineClaims.
Context {World : Type} `{RuntimeClient World}.

(** C7. [ApplyUnstructuredObj] does one thing to the cluster: the client's
    [Create] on the submitted object, with the given field manager in the
    create options (it is not an [Update] or a [Patch]). The result's
    [Success] flag is true exactly when that create returned no error, its
    [Error] field is the error the create returned (which is also the
    error returned next to the result), and its [ResultObject] is the
    submitted object; on success in particular. *)
Theorem ApplyUnstructuredObj_is_one_create
    (obj : Unstructured_ptr) (filedManager : string) (w : World) :
  let created := Create obj {| FieldManager := filedManager |} w in
  let applied := ApplyUnstructuredObj obj filedManager w in
  let result := applied.1.1 in
  applied.2 = created.2 /\
  applied.1.2 = created.1 /\
  (Success result = true <-> created.1 = None) /\
  Error result = created.1 /\
  ResultObject result = obj /\
  Gvk result = GroupVersionKind_at obj created.2.
Proof.
  cbv zeta. rewrite ApplyUnstructuredObj_eq.
  destruct (Create obj {| FieldManager := filedManager |} w) as [err w1]. simpl.
  repeat split; try reflexivity; destruct err; simpl; congruence.
Qed.

(** C2. [ApplyUnstructuredObjsBatch] on [N] objects applies each object
    with [ApplyUnstructuredObj], in the given order, and goes on after a
    failure: the cluster ends in the state that applying all [N] objects
    one at a time leaves, and the two returned slices are the successful
    and the failed ones among those [N] results, each in order, so that
    together they hold one result per object. If exactly object [k]
    (counted from 1) fails, the success slice has [N - 1] entries and the
    failure slice has exactly one, the result of object [k], carrying that
    object and its error. *)
Theorem ApplyUnstructuredObjsBatch_partitions
    (objs : list Unstructured_ptr) (fieldManager : string) (w : World) :
  let results := evalState (apply_each objs fieldManager) w in
  let batch := evalState (ApplyUnstructuredObjsBatch objs fieldManager) w in
  ResultObject <$> results = objs /\
  execState (ApplyUnstructuredObjsBatch objs fieldManager) w
    = execState (apply_each objs fieldManager) w /\
  batch.1 = filter (fun r => Success r = true) results /\
  batch.2 = filter (fun r => Success r = false) results /\
  length batch.1 + length batch.2 = length objs /\
  forall k : nat,
    1 <= k <= length objs ->
    (forall i r, results !! i = Some r -> (Success r = false <-> i = k - 1)) ->
    length batch.1 = length objs - 1 /\
    exists r, batch.2 = [r] /\ results !! (k - 1) = Some r /\
              objs !! (k - 1) = Some (ResultObject r) /\ Success r = false.
Proof.
  cbv zeta. unfold evalState, execState, ApplyUnstructuredObjsBatch.
  rewrite ApplyUnstructuredObjsBatch_loop_spec.
  pose proof (apply_each_objects objs fieldManager w) as Hobjs.
  destruct (apply_each objs fieldManager w) as [results w'].
  cbn [fst snd] in *. rewrite !app_nil_l.
  assert (Hlen : length results = length objs).
  { rewrite <- Hobjs, length_fmap. reflexivity. }
  split; [exact Hobjs|]. split; [reflexivity|].
  split; [reflexivity|]. split; [reflexivity|].
  split; [rewrite length_filter_bool; exact Hlen|].
  intros k Hk Hone.
  destruct (lookup_lt_is_Some_2 results (k - 1)) as [r Hr]; [lia|].
  destruct (filter_single_false Success results (k - 1) r Hr Hone) as [Hf Hs].
  split; [rewrite Hs, Hlen; reflexivity|].
  exists r. split; [exact Hf|]. split; [exact Hr|].
  split; [|apply (Hone (k - 1) r Hr); reflexivity].
  rewrite <- Hobjs, list_lookup_fmap, Hr. reflexivity.
Qed.

End ApplyEngineClaims.

(** The batch on three objects of which the second is invalid. *)
Lemma ApplyUnstructuredObjsBatch_partitions_witness :
  let batch :=
    evalState (ApplyUnstructuredObjsBatch [10; 11; 12] "kit") Demo.empty_cluster in
  length batch.1 = 2 /\ ResultObject <$> batch.2 = [11].
Proof.
  cbv zeta.
  destruct (ApplyUnstructuredObjsBatch_partitions [10; 11; 12] "kit" Demo.empty_cluster)
    as (_ & _ & _ & _ & _ & Hone).
  destruct (Hone 2) as (Hlen & r & Hfailed & _ & Hobj & _).
  - simpl. lia.
  - intros i r. destruct i as [|[|[|i]]]; simpl; intros [= <-]; simpl;
      split; (discriminate || reflexivity || lia).
  - split; [exact Hlen|]. rewrite Hfailed. simpl in Hobj. injection Hobj as Hobj.
    cbn. rewrite <- Hobj. reflexivity.
Defined.

(** ** The kind resolver *)

Lemma string_app_assoc (s1 s2 s3 : string) :
  (s1 +:+ s2) +:+ s3 = s1 +:+ s2 +:+ s3.
Proof.
  induction s1 as [|c s1 IH]; [reflexivity|].
  change (String c ((s1 +:+ s2) +:+ s3) = String c (s1 +:+ s2 +:+ s3)).
  rewrite IH. reflexivity.
Qed.

Section KindResolverClaims.
Context {World : Type} `{DiscoveryClient World}.

(** The scan returns the collection reference of the first entry of the
    wanted kind, if there is one. *)
Lemma GvkToGvr_scan_find (resources : list APIResource) (gvk : schema.GroupVersionKind) :
  GvkToGvr_scan resources gvk =
    (fun found : nat * APIResource =>
       {| schema.gvr_Group := schema.Group gvk;
          schema.gvr_Version := schema.Version gvk;
          schema.Resource := Name found.2 |})
    <$> list_find (fun r => res_Kind r = schema.Kind gvk) resources.
Proof.
  induction resources as [|resource rest IH]; [reflexivity|].
  cbn [GvkToGvr_scan list_find]. unfold bool_decide.
  destruct (decide_rel eq (res_Kind resource) (schema.Kind gvk)) as [Hk|Hk].
  - rewrite decide_True by exact Hk. reflexivity.
  - rewrite decide_False by exact Hk. rewrite IH.
    destruct (list_find _ rest) as [[i r]|]; reflexivity.
Qed.

(** C3. [GvkToGvr] asks discovery for the resources of the kind's
    group/version, and that query is all it does to the world. If the
    query fails, its error is returned as it is. Otherwise the resource
    list is scanned in order: the first entry whose [Kind] equals the
    wanted kind gives a collection reference with that entry's name and
    the input's group and version, and a nil error; with no such entry the
    call fails with a new error whose message is the not-found text
    followed by the printed kind reference, which ends in the kind. *)
Theorem GvkToGvr_resolves (gvk : schema.GroupVersionKind) (w : World) :
  let discovered :=
    ServerResourcesForGroupVersion
      (schema.GroupVersion_String (schema.GroupVersion_of gvk)) w in
  let resolved := GvkToGvr gvk w in
  resolved.2 = discovered.2 /\
  (forall err, discovered.1 = inl err ->
     resolved.1 = (schema.GroupVersionResource_zero, Some err)) /\
  (forall resourcesList i resource,
     discovered.1 = inr resourcesList ->
     APIResources resourcesList !! i = Some resource ->
     res_Kind resource = schema.Kind gvk ->
     (forall j earlier, APIResources resourcesList !! j = Some earlier -> j < i ->
        res_Kind earlier <> schema.Kind gvk) ->
     resolved.1 =
       ({| schema.gvr_Group := schema.Group gvk;
           schema.gvr_Version := schema.Version gvk;
           schema.Resource := Name resource |}, None)) /\
  (forall resourcesList,
     discovered.1 = inr resourcesList ->
     Forall (fun r => res_Kind r <> schema.Kind gvk) (APIResources resourcesList) ->
     resolved.1 =
       (schema.GroupVersionResource_zero,
        Some (errors_New (not_found_prefix +:+ schema.GroupVersionKind_String gvk))) /\
     exists before,
       not_found_prefix +:+ schema.GroupVersionKind_String gvk
       = before +:+ schema.Kind gvk).
Proof.
  cbv zeta. unfold GvkToGvr, bind.
  destruct (ServerResourcesForGroupVersion _ w) as [[err|resourcesList] w1];
    cbn [fst snd].
  - split; [reflexivity|]. split; [intros ? [= <-]; reflexivity|].
    split; [intros ? ? ? [=]|intros ? [=]].
  - rewrite GvkToGvr_scan_find.
    split; [destruct (list_find _ _); reflexivity|].
    split; [intros ? [=]|]. split.
    + intros ? i resource [= <-] Hi Hkind Hfirst.
      assert (Hfind : list_find (fun r => res_Kind r = schema.Kind gvk)
                        (APIResources resourcesList) = Some (i, resource)).
      { apply list_find_Some. split; [exact Hi|]. split; [exact Hkind|].
        intros j earlier Hj Hlt. exact (Hfirst j earlier Hj Hlt). }
      rewrite Hfind. reflexivity.
    + intros ? [= <-] Hnone.
      assert (Hfind : list_find (fun r => res_Kind r = schema.Kind gvk)
                        (APIResources resourcesList) = None).
      { apply list_find_None. exact Hnone. }
      rewrite Hfind. split; [reflexivity|].
      exists (not_found_prefix +:+ schema.Group gvk +:+ "/" +:+ schema.Version gvk
              +:+ ", Kind=").
      unfold schema.GroupVersionKind_String.
      rewrite !string_app_assoc. reflexivity.
Qed.

End KindResolverClaims.

(** A kind that discovery lists (twice: the first entry wins), a kind it
    does not list, and a group/version it refuses. *)
Lemma GvkToGvr_resolves_witness :
  evalState (GvkToGvr Demo.deployment) Demo.empty_cluster
    = ({| schema.gvr_Group := "apps"; schema.gvr_Version := "v1";
          schema.Resource := "deployments" |}, None) /\
  evalState (GvkToGvr Demo.replicaset) Demo.empty_cluster
    = (schema.GroupVersionResource_zero,
       Some (errors_New (not_found_prefix +:+ "apps/v1, Kind=ReplicaSet"))) /\
  evalState (GvkToGvr Demo.cronjob) Demo.empty_cluster
    = (schema.GroupVersionResource_zero, Some Demo.discovery_refused).
Proof.
  split; [|split].
  - destruct (GvkToGvr_resolves Demo.deployment Demo.empty_cluster)
      as (_ & _ & Hfound & _).
    apply (Hfound Demo.apps_v1 1
             {| Name := "deployments"; res_Kind := "Deployment"; Namespaced := true |}).
    + reflexivity.
    + reflexivity.
    + reflexivity.
    + intros j earlier Hj Hlt. destruct j as [|j]; [|lia].
      injection Hj as <-. discriminate.
  - destruct (GvkToGvr_resolves Demo.replicaset Demo.empty_cluster)
      as (_ & _ & _ & Hmissing).
    apply (Hmissing Demo.apps_v1); [reflexivity|].
    repeat constructor; discriminate.
  - destruct (GvkToGvr_resolves Demo.cronjob Demo.empty_cluster)
      as (_ & Hfailed & _).
    apply Hfailed. reflexivity.
Defined.

(** ** The connection manager *)

Lemma try_call_Ok {A B} (call : LibraryCall) (a : A) (msg : string) (k : A -> Ctor B) :
  ctor_bind (try_call call (Ok a) msg) k = (call :: journal (k a), outcome (k a)).
Proof. unfold ctor_bind, try_call, journal, outcome. destruct (k a). reflexivity. Qed.

Lemma try_call_Err {A B} (call : LibraryCall) (e : error) (msg : string) (k : A -> Ctor B) :
  ctor_bind (try_call call (Err e) msg) k = ([call], Err (errors_Wrap e msg)).
Proof. reflexivity. Qed.

(** A call that is none of the calls in a journal written out in full. *)
Ltac not_in_journal :=
  cbn; let Hin := fresh "Hin" in
  intros Hin;
  repeat (apply elem_of_cons in Hin as [Hin|Hin]; [discriminate Hin|]);
  inversion Hin.

Section ConnectionManagerClaims.
Context `{ClientLibraries}.

(** The constructor from a rest config makes four library calls, the
    version query third, and fails where the first of them fails. *)
Lemma newGenericK8sClientWithRestConfig_probe (id authType : string) (config : rest.Config) :
  let built := newGenericK8sClientWithRestConfig id authType config in
  (is_Ok (outcome built) = true ->
     journal built = [call_dynamic_NewForConfig; call_kubernetes_NewForConfig;
                      call_ServerVersion; call_cluster_New]) /\
  ((forall sc, is_Ok (ServerVersion sc) = false) -> is_Ok (outcome built) = false).
Proof.
  cbv zeta. unfold newGenericK8sClientWithRestConfig.
  destruct (dynamic_NewForConfig config) as [dc|e1];
    [rewrite try_call_Ok|rewrite try_call_Err; split; [discriminate|reflexivity]].
  destruct (kubernetes_NewForConfig config) as [sc|e2];
    [rewrite try_call_Ok|rewrite try_call_Err; split; [discriminate|reflexivity]].
  destruct (ServerVersion sc) as [v|e3] eqn:Hprobe;
    [rewrite try_call_Ok|rewrite try_call_Err; split; [discriminate|reflexivity]].
  destruct (cluster_New config) as [cl|e4];
    [rewrite try_call_Ok|rewrite try_call_Err; split; [discriminate|reflexivity]].
  split; [reflexivity|].
  intros Hdown. specialize (Hdown sc). rewrite Hprobe in Hdown. discriminate.
Qed.

(** The constructor from a kubeconfig object makes at most four library
    calls, none of which is the version query, and returns a client when
    all four succeed. *)
Lemma newGenericK8sClientWithKubeConfigObj_no_probe
    (id authType : string) (config : clientcmdapi.Config) :
  let built := newGenericK8sClientWithKubeConfigObj id authType config in
  (call_ServerVersion ∉ journal built) /\
  forall restClientConfig dc sc clusterCli,
    clientcmd_DefaultClientConfig config = Ok restClientConfig ->
    dynamic_NewForConfig restClientConfig = Ok dc ->
    kubernetes_NewForConfig restClientConfig = Ok sc ->
    cluster_New restClientConfig = Ok clusterCli ->
    outcome built =
      Ok {| TargetK8sApiServerId := id; AuthType := authType;
            kubeConfig := Some config; restConfig := restClientConfig;
            runtimeCluster := clusterCli; mgrCtx := {| cancelled := false |};
            standardClient := sc; dynamicClient := dc;
            schemeLock := {| held := false |} |}.
Proof.
  cbv zeta. unfold newGenericK8sClientWithKubeConfigObj. split.
  - destruct (clientcmd_DefaultClientConfig config) as [rc|e0];
      [rewrite try_call_Ok|rewrite try_call_Err; not_in_journal].
    destruct (dynamic_NewForConfig rc) as [dc|e1];
      [rewrite try_call_Ok|rewrite try_call_Err; not_in_journal].
    destruct (kubernetes_NewForConfig rc) as [sc|e2];
      [rewrite try_call_Ok|rewrite try_call_Err; not_in_journal].
    destruct (cluster_New rc) as [cl|e3];
      [rewrite try_call_Ok|rewrite try_call_Err]; not_in_journal.
  - intros rc dc sc cl -> . rewrite try_call_Ok. intros ->. rewrite try_call_Ok.
    intros ->. rewrite try_call_Ok. intros ->. rewrite try_call_Ok. reflexivity.
Qed.

(** From a rest config whose two clients can be built, the version query
    decides: its error is returned wrapped and ends the construction, its
    answer lets the construction go on to the runtime cluster. *)
Lemma newGenericK8sClientWithRestConfig_decided_by_probe
    (id authType : string) (config : rest.Config) (dc : DynamicInterface) (sc : Clientset) :
  dynamic_NewForConfig config = Ok dc ->
  kubernetes_NewForConfig config = Ok sc ->
  let built := newGenericK8sClientWithRestConfig id authType config in
  (forall e,
     ServerVersion sc = Err e ->
     built = ([call_dynamic_NewForConfig; call_kubernetes_NewForConfig; call_ServerVersion],
              Err (errors_Wrap e "无法连接到集群"))) /\
  (forall v clusterCli,
     ServerVersion sc = Ok v ->
     cluster_New config = Ok clusterCli ->
     built = ([call_dynamic_NewForConfig; call_kubernetes_NewForConfig;
               call_ServerVersion; call_cluster_New],
              Ok {| TargetK8sApiServerId := id; AuthType := authType;
                    kubeConfig := None; restConfig := config;
                    runtimeCluster := clusterCli; mgrCtx := {| cancelled := false |};
                    standardClient := sc; dynamicClient := dc;
                    schemeLock := {| held := false |} |})).
Proof.
  intros Hdc Hsc. cbv zeta. unfold newGenericK8sClientWithRestConfig.
  rewrite Hdc, try_call_Ok, Hsc, try_call_Ok. split.
  - intros e Hv. rewrite Hv, try_call_Err. reflexivity.
  - intros v cl Hv Hcl. rewrite Hv, try_call_Ok, Hcl, try_call_Ok. reflexivity.
Qed.

(** The token constructor returns a client exactly when its four library
    calls succeed. *)
Lemma newGenericK8sClientWithKubeConfigObj_Ok_iff
    (id authType : string) (config : clientcmdapi.Config) :
  is_Ok (outcome (newGenericK8sClientWithKubeConfigObj id authType config)) = true <->
  exists restClientConfig dc sc clusterCli,
    clientcmd_DefaultClientConfig config = Ok restClientConfig /\
    dynamic_NewForConfig restClientConfig = Ok dc /\
    kubernetes_NewForConfig restClientConfig = Ok sc /\
    cluster_New restClientConfig = Ok clusterCli.
Proof.
  split.
  - unfold newGenericK8sClientWithKubeConfigObj.
    destruct (clientcmd_DefaultClientConfig config) as [rc|e0];
      [rewrite try_call_Ok|rewrite try_call_Err; discriminate].
    destruct (dynamic_NewForConfig rc) as [dc|e1] eqn:Hdc;
      [rewrite try_call_Ok|rewrite try_call_Err; discriminate].
    destruct (kubernetes_NewForConfig rc) as [sc|e2] eqn:Hsc;
      [rewrite try_call_Ok|rewrite try_call_Err; discriminate].
    destruct (cluster_New rc) as [cl|e3] eqn:Hcl;
      [rewrite try_call_Ok|rewrite try_call_Err; discriminate].
    intros _. exists rc, dc, sc, cl. auto.
  - intros (rc & dc & sc & cl & H0 & H1 & H2 & H3).
    destruct (newGenericK8sClientWithKubeConfigObj_no_probe id authType config)
      as [_ Hbuilt].
    rewrite (Hbuilt rc dc sc cl H0 H1 H2 H3). reflexivity.
Qed.

(** The specification's sentence on token mode fails in front of libraries
    whose [cluster.New] goes to the server: with the server out of reach the
    token constructor fails at that call, at construction. *)
Lemma token_mode_fails_when_cluster_New_needs_the_server :
  ~ token_mode_succeeds (H := Mounted.eager_discovery)
      "c1" "https://10.255.255.1:6443" "t0ken" [] "" false.
Proof. unfold token_mode_succeeds. vm_compute. discriminate. Qed.

(** C4, as the code has it. In config-bytes mode and in in-cluster mode,
    once the rest config and both clients are built, the server-version
    query decides: if it fails, the construction returns that error wrapped
    as the cannot-connect error and makes no further call; if it is
    answered, the construction goes on to [cluster.New] and, when that
    succeeds, returns the client. So in these modes a server that answers no
    version query makes the construction fail. In token mode the
    construction never queries the server version, and it returns a client
    exactly when its four library calls (rest config from the kubeconfig,
    dynamic client, standard client, [cluster.New]) succeed: the server
    matters to it only through those calls. *)
Theorem construction_is_probed_except_in_token_mode :
  (forall id kubeConfig overrideSNIServerName loader config dc sc,
     clientcmd_NewClientConfigFromBytes kubeConfig = Ok loader ->
     loader_ClientConfig loader = Ok config ->
     let config' :=
       if len_gt overrideSNIServerName 1
       then rest.set_ServerName overrideSNIServerName config else config in
     dynamic_NewForConfig config' = Ok dc ->
     kubernetes_NewForConfig config' = Ok sc ->
     let built :=
       NewGenericK8sClientWithKubeConfigBytes id kubeConfig overrideSNIServerName in
     (forall e,
        ServerVersion sc = Err e ->
        built = ([call_NewClientConfigFromBytes; call_loader_ClientConfig;
                  call_dynamic_NewForConfig; call_kubernetes_NewForConfig;
                  call_ServerVersion],
                 Err (errors_Wrap e "无法连接到集群"))) /\
     (forall v clusterCli,
        ServerVersion sc = Ok v ->
        cluster_New config' = Ok clusterCli ->
        built = ([call_NewClientConfigFromBytes; call_loader_ClientConfig;
                  call_dynamic_NewForConfig; call_kubernetes_NewForConfig;
                  call_ServerVersion; call_cluster_New],
                 Ok {| TargetK8sApiServerId := id; AuthType := AuthTypeKubeConfigBytes;
                       kubeConfig := None; restConfig := config';
                       runtimeCluster := clusterCli;
                       mgrCtx := {| cancelled := false |};
                       standardClient := sc; dynamicClient := dc;
                       schemeLock := {| held := false |} |}))) /\
  (forall id config dc sc,
     rest_InClusterConfig = Ok config ->
     dynamic_NewForConfig config = Ok dc ->
     kubernetes_NewForConfig config = Ok sc ->
     let built := NewGenericK8sClientInCluster id in
     (forall e,
        ServerVersion sc = Err e ->
        built = ([call_InClusterConfig;
                  call_dynamic_NewForConfig; call_kubernetes_NewForConfig;
                  call_ServerVersion],
                 Err (errors_Wrap e "无法连接到集群"))) /\
     (forall v clusterCli,
        ServerVersion sc = Ok v ->
        cluster_New config = Ok clusterCli ->
        built = ([call_InClusterConfig;
                  call_dynamic_NewForConfig; call_kubernetes_NewForConfig;
                  call_ServerVersion; call_cluster_New],
                 Ok {| TargetK8sApiServerId := id; AuthType := AuthTypeInCluster;
                       kubeConfig := None; restConfig := config;
                       runtimeCluster := clusterCli;
                       mgrCtx := {| cancelled := false |};
                       standardClient := sc; dynamicClient := dc;
                       schemeLock := {| held := false |} |}))) /\
  (forall id kubeConfig overrideSNIServerName,
     (forall sc, is_Ok (ServerVersion sc) = false) ->
     is_Ok (outcome (NewGenericK8sClientWithKubeConfigBytes id kubeConfig
                       overrideSNIServerName)) = false) /\
  (forall id,
     (forall sc, is_Ok (ServerVersion sc) = false) ->
     is_Ok (outcome (NewGenericK8sClientInCluster id)) = false) /\
  (forall id apiServerUrl token caPem optionalTLSServerName skipTLSVerify,
     let built :=
       NewGenericK8sClientWithToken id apiServerUrl token caPem
         optionalTLSServerName skipTLSVerify in
     (call_ServerVersion ∉ journal built) /\
     (is_Ok (outcome built) = true <->
      exists restClientConfig dc sc clusterCli,
        clientcmd_DefaultClientConfig
          (token_kubeconfig apiServerUrl token caPem optionalTLSServerName skipTLSVerify)
          = Ok restClientConfig /\
        dynamic_NewForConfig restClientConfig = Ok dc /\
        kubernetes_NewForConfig restClientConfig = Ok sc /\
        cluster_New restClientConfig = Ok clusterCli)).
Proof.
  split; [|split; [|split; [|split]]].
  - intros id kubeConfig sni loader config dc sc Hloader Hconfig config' Hdc Hsc.
    cbv zeta. unfold NewGenericK8sClientWithKubeConfigBytes.
    rewrite Hloader, try_call_Ok, Hconfig, try_call_Ok. cbv zeta. fold config'.
    destruct (newGenericK8sClientWithRestConfig_decided_by_probe
                id AuthTypeKubeConfigBytes config' dc sc Hdc Hsc) as [Hfail Hgo].
    split.
    + intros e Hv. rewrite (Hfail e Hv). reflexivity.
    + intros v cl Hv Hcl. rewrite (Hgo v cl Hv Hcl). reflexivity.
  - intros id config dc sc Hconfig Hdc Hsc. cbv zeta.
    unfold NewGenericK8sClientInCluster. rewrite Hconfig, try_call_Ok.
    destruct (newGenericK8sClientWithRestConfig_decided_by_probe
                id AuthTypeInCluster config dc sc Hdc Hsc) as [Hfail Hgo].
    split.
    + intros e Hv. rewrite (Hfail e Hv). reflexivity.
    + intros v cl Hv Hcl. rewrite (Hgo v cl Hv Hcl). reflexivity.
  - intros id kubeConfig sni Hdown. unfold NewGenericK8sClientWithKubeConfigBytes.
    destruct (clientcmd_NewClientConfigFromBytes kubeConfig) as [loader|e0];
      [rewrite try_call_Ok|rewrite try_call_Err; reflexivity].
    destruct (loader_ClientConfig loader) as [config|e1];
      [rewrite try_call_Ok|rewrite try_call_Err; reflexivity].
    cbv zeta. cbn [outcome snd].
    apply (newGenericK8sClientWithRestConfig_probe id AuthTypeKubeConfigBytes).
    exact Hdown.
  - intros id Hdown. unfold NewGenericK8sClientInCluster.
    destruct rest_InClusterConfig as [config|e0];
      [rewrite try_call_Ok|rewrite try_call_Err; reflexivity].
    cbn [outcome snd].
    apply (newGenericK8sClientWithRestConfig_probe id AuthTypeInCluster). exact Hdown.
  - intros id apiServerUrl token caPem sni skip. cbv zeta.
    unfold NewGenericK8sClientWithToken. split.
    + apply (newGenericK8sClientWithKubeConfigObj_no_probe id AuthTypeToken).
    + apply newGenericK8sClientWithKubeConfigObj_Ok_iff.
Qed.

End ConnectionManagerClaims.

(** Config-bytes construction in front of a server that answers and of one
    that does not, and token construction in front of the latter with
    libraries whose [cluster.New] stays local. *)
Lemma construction_is_probed_except_in_token_mode_witness :
  is_Ok (outcome (NewGenericK8sClientWithKubeConfigBytes (H := Mounted.reachable_server)
                    "c1" [] ""))
    = true /\
  NewGenericK8sClientWithKubeConfigBytes (H := Demo.unreachable_server) "c1" [] ""
    = ([call_NewClientConfigFromBytes; call_loader_ClientConfig;
        call_dynamic_NewForConfig; call_kubernetes_NewForConfig; call_ServerVersion],
       Err (errors_Wrap Demo.connection_refused "无法连接到集群")) /\
  is_Ok (outcome (NewGenericK8sClientInCluster (H := Demo.unreachable_server) "c1"))
    = false /\
  is_Ok (outcome (NewGenericK8sClientWithToken (H := Demo.unreachable_server)
                    "c1" "https://10.255.255.1:6443" "t0ken" [] "" false))
    = true.
Proof.
  split; [|split; [|split]].
  - destruct (construction_is_probed_except_in_token_mode (H := Mounted.reachable_server))
      as (Hbytes & _).
    destruct (Hbytes "c1" [] "" [] Demo.mounted_config Demo.mounted_config
                Demo.mounted_config eq_refl eq_refl eq_refl eq_refl) as [_ Hgo].
    rewrite (Hgo "v1.27.3" Demo.mounted_config eq_refl eq_refl). reflexivity.
  - destruct (construction_is_probed_except_in_token_mode (H := Demo.unreachable_server))
      as (Hbytes & _).
    destruct (Hbytes "c1" [] "" [] Demo.mounted_config Demo.mounted_config
                Demo.mounted_config eq_refl eq_refl eq_refl eq_refl) as [Hfail _].
    apply Hfail. reflexivity.
  - destruct (construction_is_probed_except_in_token_mode (H := Demo.unreachable_server))
      as (_ & _ & _ & Hcluster & _).
    apply (Hcluster "c1"). intros sc. reflexivity.
  - destruct (construction_is_probed_except_in_token_mode (H := Demo.unreachable_server))
      as (_ & _ & _ & _ & Htoken).
    apply (Htoken "c1" "https://10.255.255.1:6443" "t0ken" [] "" false).
    eexists _, _, _, _. repeat split; reflexivity.
Defined.

(** ** Scheme registration *)

Lemma executions_app (gv : schema.GroupVersion) (l1 l2 : list SchemeEvent) :
  executions gv (l1 ++ l2) = executions gv l1 + executions gv l2.
Proof. unfold executions. rewrite filter_app, length_app. reflexivity. Qed.

Lemma executions_one (gv : schema.GroupVersion) :
  executions gv [ev_addSchemeFunc gv] = 1.
Proof.
  unfold executions. rewrite filter_cons_True by reflexivity. reflexivity.
Qed.

(** One call on a free mutex: lock, check, callback if the version is not
    registered, unlock. *)
Lemma AddScheme_steps (gv : schema.GroupVersion) (f : AddSchemeFunc) (c : SchemeRegistry) :
  held (lock c) = false ->
  AddScheme gv f c =
    Some {| scheme := if runtime.IsVersionRegistered (scheme c) gv then scheme c
                      else (f (scheme c)).1;
            lock := {| held := false |};
            steps := steps c ++ [ev_Lock]
                       ++ (if runtime.IsVersionRegistered (scheme c) gv then []
                           else [ev_addSchemeFunc gv])
                       ++ [ev_Unlock] |}.
Proof.
  intros Hfree. unfold AddScheme, Mutex_Lock, Mutex_Unlock. rewrite Hfree. cbn.
  destruct (runtime.IsVersionRegistered (scheme c) gv); cbn.
  - rewrite <- !app_assoc. reflexivity.
  - destruct (f (scheme c)) as [s err]. cbn. rewrite <- !app_assoc. reflexivity.
Qed.

(** The specification's sentence fails for a callback that returns an error
    without registering the version: the second call finds the version still
    unregistered and runs the callback again. *)
Lemma callback_runs_twice_when_registration_fails :
  ~ callback_runs_once Demo.widgets_v1 Demo.broken_AddToScheme Demo.broken_AddToScheme
      Demo.fresh_registry.
Proof.
  intros (c' & Hrun & Hcount).
  vm_compute in Hrun. injection Hrun as <-.
  vm_compute in Hcount. discriminate Hcount.
Qed.

(** C5, as the code has it. On a free mutex, [AddScheme] takes the mutex,
    checks whether the group/version is registered in the scheme, runs the
    callback only if it is not, and releases the mutex. Two calls for the
    same group/version run a callback exactly once when the group/version
    was not registered before the first call and the first callback
    registers it. *)
Theorem AddScheme_checks_then_registers
    (gv : schema.GroupVersion) (f g : AddSchemeFunc) (c : SchemeRegistry) :
  held (lock c) = false ->
  (exists c1,
     AddScheme gv f c = Some c1 /\ held (lock c1) = false /\
     steps c1 = steps c ++ [ev_Lock]
                  ++ (if runtime.IsVersionRegistered (scheme c) gv then []
                      else [ev_addSchemeFunc gv])
                  ++ [ev_Unlock] /\
     scheme c1 = if runtime.IsVersionRegistered (scheme c) gv then scheme c
                 else (f (scheme c)).1) /\
  (runtime.IsVersionRegistered (scheme c) gv = false ->
   runtime.IsVersionRegistered (f (scheme c)).1 gv = true ->
   callback_runs_once gv f g c).
Proof.
  intros Hfree. split.
  - eexists. split; [apply AddScheme_steps; exact Hfree|]. cbn. auto.
  - intros Hnew Hreg. unfold callback_runs_once, AddScheme_twice.
    rewrite (AddScheme_steps gv f c Hfree), Hnew.
    rewrite AddScheme_steps by reflexivity. cbn [scheme steps]. rewrite Hreg.
    eexists. split; [reflexivity|]. cbn [steps].
    rewrite !executions_app, executions_one. cbn.
    rewrite !decide_False by discriminate. cbn. lia.
Qed.

(** A fresh registry and a callback that registers the version: the second
    call does not run its callback. *)
Lemma AddScheme_checks_then_registers_witness :
  callback_runs_once Demo.widgets_v1 (Demo.AddToScheme Demo.widgets_v1)
    Demo.broken_AddToScheme Demo.fresh_registry.
Proof.
  apply (AddScheme_checks_then_registers Demo.widgets_v1
           (Demo.AddToScheme Demo.widgets_v1) Demo.broken_AddToScheme Demo.fresh_registry).
  - reflexivity.
  - reflexivity.
  - vm_compute. reflexivity.
Defined.

(** C10. [AddScheme] has no result of its own and drops the error its
    callback returns: with whatever error, or none, a callback answers, the
    state after the call is the one left by a callback that does the same to
    the scheme and returns nil. A caller is told nothing of a failed
    registration. *)
Theorem AddScheme_discards_callback_error
    (gv : schema.GroupVersion) (f : AddSchemeFunc) (c : SchemeRegistry) :
  AddScheme gv f c = AddScheme gv (fun s => ((f s).1, None)) c.
Proof.
  unfold AddScheme. destruct (Mutex_Lock c) as [c1|]; [|reflexivity].
  destruct (runtime.IsVersionRegistered (scheme c1) gv); cbn; [reflexivity|].
  destruct (f (scheme c1)) as [s err]. reflexivity.
Qed.

(** ** The resource watcher: the indexer set *)

(** Copying the caller's entries over the defaults is a union in which the
    caller's entries win. *)
Lemma merge_indexers_union (defaultIndexers indexers : gmap string cache.IndexFunc) :
  merge_indexers defaultIndexers indexers = indexers ∪ defaultIndexers.
Proof.
  unfold merge_indexers.
  apply (map_fold_weak_ind
           (fun acc (m : gmap string cache.IndexFunc) => acc = m ∪ defaultIndexers)).
  - rewrite (left_id_L ∅ (∪)). reflexivity.
  - intros k v m acc _ ->. rewrite insert_union_l. reflexivity.
Qed.

Lemma NewDynamicWatcher_indexers_union (indexers : gmap string cache.IndexFunc) :
  NewDynamicWatcher_indexers indexers
  = indexers ∪ {[ cache.NamespaceIndex := cache.MetaNamespaceIndexFunc ]}.
Proof.
  unfold NewDynamicWatcher_indexers. case_bool_decide as Hsize.
  - apply merge_indexers_union.
  - assert (indexers = ∅) as -> by (apply map_size_empty_iff; lia).
    rewrite (left_id_L ∅ (∪)). reflexivity.
Qed.

(** The specification's sentence fails for a caller whose own index is named
    like the default one: the informer then files objects under that name by
    the caller's function, here by object name. *)
Lemma callers_namespace_index_replaces_default :
  ~ has_default_namespace_index (Demo.new_watcher Demo.callers_indexers)
      Demo.callers_indexers.
Proof.
  intros [(indexFunc & Hlookup & Hnamespace) _].
  change (inf_indexers (informer (Demo.new_watcher Demo.callers_indexers)))
    with (NewDynamicWatcher_indexers Demo.callers_indexers) in Hlookup.
  rewrite NewDynamicWatcher_indexers_union in Hlookup.
  erewrite lookup_union_Some_l in Hlookup by apply lookup_singleton_eq.
  injection Hlookup as <-.
  specialize (Hnamespace Demo.web). discriminate Hnamespace.
Qed.

Section IndexerClaims.
Context {Client App : Type}.

(** C8, as the code has it. The indexer set that [NewDynamicWatcher] hands
    to the informer holds every index function of the caller under the
    caller's name for it, and always an index named [namespace]: the
    default namespace index, unless the caller supplied an index of that
    name, which then takes its place. It holds nothing else. *)
Theorem NewDynamicWatcher_indexer_set
    (client : Client) (resource : schema.GroupVersionResource) (namespace : string)
    (resync : Z) (indexers : gmap string cache.IndexFunc)
    (listOptionsFunc : option (ListOptions -> ListOptions)) :
  let w : K8sResourceWatcher Client App :=
    NewDynamicWatcher client resource namespace resync indexers listOptionsFunc in
  let handed := inf_indexers (informer w) in
  (forall name indexFunc,
     indexers !! name = Some indexFunc -> handed !! name = Some indexFunc) /\
  handed !! cache.NamespaceIndex
    = Some (default cache.MetaNamespaceIndexFunc (indexers !! cache.NamespaceIndex)) /\
  (forall name, name <> cache.NamespaceIndex -> handed !! name = indexers !! name).
Proof.
  cbv zeta. cbn [NewDynamicWatcher informer NewFilteredDynamicInformer inf_indexers].
  rewrite NewDynamicWatcher_indexers_union.
  split; [|split].
  - intros name indexFunc Hin. apply lookup_union_Some_l. exact Hin.
  - destruct (indexers !! cache.NamespaceIndex) as [f|] eqn:Hns.
    + apply lookup_union_Some_l. exact Hns.
    + rewrite lookup_union_r by exact Hns. apply lookup_singleton_eq.
  - intros name Hname.
    destruct (indexers !! name) as [f|] eqn:Hin.
    + apply lookup_union_Some_l. exact Hin.
    + rewrite lookup_union_r by exact Hin. apply lookup_singleton_ne. congruence.
Qed.

End IndexerClaims.

(** ** The resource watcher: events, cache and queue *)

Section WatcherRuns.
Context {Client App : Type}.
Implicit Types (w : K8sResourceWatcher Client App) (app : App).

(** Delivering a transition applies it to the store, also when the
    transition is a delete that is dropped: the key was not there. *)
Lemma deliver_store (e : WatchEvent) w app :
  inf_store (informer (deliver e (w, app)).1) = apply_event e (inf_store (informer w)).
Proof.
  unfold deliver, classify.
  destruct e as [obj|obj|obj]; cbn [apply_event];
    destruct (inf_store (informer w) !! cache.MetaNamespaceKeyFunc obj) eqn:Hkey;
    cbn [fst with_informer informer with_listeners inf_store]; try reflexivity.
  symmetry. apply delete_id. exact Hkey.
Qed.

(** Delivering a transition runs no callback. *)
Lemma deliver_app (e : WatchEvent) w app : (deliver e (w, app)).2 = app.
Proof. unfold deliver. destruct (classify e (inf_store (informer w))); reflexivity. Qed.


(** No step of a run touches the queue. *)
Lemma step_queue (s : WatcherStep App) (st : K8sResourceWatcher Client App * App) :
  queue (step s st).1 = queue st.1.
Proof.
  destruct st as [w app]. destruct s as [a d u|ns|ns name|e|i]; try reflexivity.
  - cbn [step]. unfold deliver.
    destruct (classify e (inf_store (informer w))); reflexivity.
  - cbn [step]. unfold run_listener.
    destruct (inf_listeners (informer w) !! i) as [l|]; [|reflexivity].
    destruct (pendingNotifications l); reflexivity.
Qed.

Lemma run_queue (steps : list (WatcherStep App)) :
  forall st : K8sResourceWatcher Client App * App, queue (run steps st).1 = queue st.1.
Proof.
  induction steps as [|s steps IH]; intros st; [reflexivity|].
  cbn [run foldl]. fold (run steps (step s st)). rewrite IH. apply step_queue.
Qed.


(** [len(namespace) > 0] is [namespace] not being the empty string. *)
Lemma len_gt_0 (s : string) : len_gt s 0 = bool_decide (s <> "").
Proof.
  unfold len_gt. destruct s as [|c s]; cbn.
  - rewrite bool_decide_false by lia. rewrite bool_decide_false by congruence.
    reflexivity.
  - rewrite bool_decide_true by lia. rewrite bool_decide_true by discriminate.
    reflexivity.
Qed.

(** The store's [Get] has no key for a plain string, whatever it holds. *)
Lemma Get_of_a_string (store : gmap string Object) (key : string) :
  cache.Get store (any_string key)
  = (None, false, Some (KeyError (any_string key) cache.object_has_no_meta)).
Proof. reflexivity. Qed.

End WatcherRuns.

(** The specification's sentence fails on the first transition a watcher
    with a registered handler observes: the handler's listener runs the
    caller's callback for it, and the queue stays empty. *)
Lemma delivery_leaves_queue_empty :
  ~ delivery_enqueues_key Demo.watcher [] (Added Demo.web) [0].
Proof.
  unfold delivery_enqueues_key. rewrite run_queue. cbn [fst].
  change (queue Demo.watcher) with workqueue.NewRateLimitingQueue.
  cbn [workqueue.items workqueue.NewRateLimitingQueue].
  apply not_elem_of_nil.
Qed.

Section WatcherClaims.
Context {Client App : Type}.

(** C1, as the code has it. Take a watcher built by [NewDynamicWatcher]
    and any run of it: handlers registered with [AddEventHandler], cache
    reads, observed transitions, listeners running the caller's callbacks.
    No Add, Update or Delete that is delivered next, with any listeners
    running their callbacks for it, puts anything on the work queue: the
    queue is empty before the delivery and empty after it. *)
Theorem events_never_reach_the_queue
    (client : Client) (resource : schema.GroupVersionResource) (namespace : string)
    (resync : Z) (indexers : gmap string cache.IndexFunc)
    (listOptionsFunc : option (ListOptions -> ListOptions))
    (steps : list (WatcherStep App)) (app : App) (e : WatchEvent)
    (schedule : list nat) :
  let w0 : K8sResourceWatcher Client App :=
    NewDynamicWatcher client resource namespace resync indexers listOptionsFunc in
  let st := run steps (w0, app) in
  let st' := run (observe e :: (listener_runs <$> schedule)) st in
  workqueue.items (queue st.1) = [] /\
  workqueue.items (queue st'.1) = [].
Proof.
  cbv zeta. rewrite !run_queue. cbn. auto.
Qed.

(** C6, where the code departs from it. A watcher built by
    [NewDynamicWatcher] has observed the object [team-a/web] added, so its
    store holds the object under the key [team-a/web]. [GetObject] composes
    that very key and passes it, a plain string, to the store's [Get], which
    takes the object to look for: the store's key function finds no metadata
    on a string, and the call answers no object, [exists = false] and a key
    error. A lookup of an object never observed answers a key error too,
    where the specification promises no error. *)
Theorem GetObject_answers_a_key_error :
  let w : K8sResourceWatcher unit (list string) :=
    (run [observe (Added Demo.web)] (Demo.new_watcher ∅, [])).1 in
  GetObject_key "team-a" "web" = "team-a/web" /\
  cache.GetByKey (inf_store (informer w)) "team-a/web" = (Some Demo.web, true, None) /\
  GetObject w "team-a" "web"
    = (None, false, Some (KeyError (any_string "team-a/web") cache.object_has_no_meta)) /\
  GetObject w "team-a" "db"
    = (None, false, Some (KeyError (any_string "team-a/db") cache.object_has_no_meta)).
Proof.
  cbv zeta. split; [reflexivity|]. split.
  - vm_compute. reflexivity.
  - split; reflexivity.
Qed.

(** C9. [GetObjectsInNamespace] makes one namespace-scoped listing of the
    local cache and has no result: whatever the cache holds and whatever the
    namespace, the caller gets the empty value, and as a step of a run the
    call leaves the watcher and everything the caller can reach as they
    were. The objects it lists, and the error of the listing, reach
    nobody. *)
Theorem GetObjectsInNamespace_shows_nothing
    (w w' : K8sResourceWatcher Client App) (app : App) (namespace : string) :
  (GetObjectsInNamespace w namespace).1
    = [read_ByNamespace_List namespace (ByNamespace_List (informer w) namespace)] /\
  (GetObjectsInNamespace w namespace).2 = tt /\
  (GetObjectsInNamespace w namespace).2 = (GetObjectsInNamespace w' namespace).2 /\
  step (call_GetObjectsInNamespace namespace) (w, app) = (w, app).
Proof.
  unfold GetObjectsInNamespace. cbn [fst snd].
  split; [reflexivity|]. split; [reflexivity|]. split; reflexivity.
Qed.

End WatcherClaims.

(** The listing that [GetObjectsInNamespace] drops does depend on the cache. *)
Example ByNamespace_List_depends_on_cache :
  ByNamespace_List (informer (deliver (Added Demo.web) (Demo.watcher, [])).1) "team-a"
    = ([Demo.web], None) /\
  ByNamespace_List (informer Demo.watcher) "team-a" = ([], None).
Proof. split; vm_compute; reflexivity. Qed.

(** The callbacks of the demo watcher see an add, an update and a delete,
    each when the listener runs; a delete of an object never stored is
    dropped. *)
Example handlers_are_told :
  (run [observe (Deleted Demo.web); observe (Added Demo.web); listener_runs 0;
        observe (Modified Demo.web'); observe (Deleted Demo.web');
        listener_runs 0; listener_runs 0; listener_runs 0]
     (Demo.watcher, [])).2
  = ["add team-a/web"; "update team-a/web"; "delete team-a/web"].
Proof. vm_compute. reflexivity. Qed.

(** A handler registered after an object was stored is first told of that
    object as an add. *)
Example late_handler_is_told_of_stored_objects :
  (run [observe (Added Demo.web);
        call_AddEventHandler (Some Demo.log_add) None None; listener_runs 0]
     (Demo.new_watcher ∅, [])).2
  = ["add team-a/web"].
Proof. vm_compute. reflexivity. Qed.

(** The caller's index of the name [namespace] is the one the informer gets. *)
Lemma NewDynamicWatcher_indexer_set_witness :
  inf_indexers (informer (Demo.new_watcher Demo.callers_indexers)) !! cache.NamespaceIndex
  = Some Demo.by_name.
Proof.
  destruct (NewDynamicWatcher_indexer_set (Client := unit) (App := list string)
              tt Demo.pods "team-a" 30 Demo.callers_indexers None) as (Hcaller & _ & _).
  apply Hcaller. apply lookup_singleton_eq.
Defined.

(** The engine creates and never merges: the same object submitted twice
    succeeds once and fails once. *)
Example second_create_of_an_object_fails :
  evalState (ApplyUnstructuredObjsBatch [10; 10] "kit") Demo.empty_cluster
  = ([ {| Gvk := Demo.deployment; Success := true; Error := None; ResultObject := 10 |} ],
     [ {| Gvk := Demo.deployment; Success := false;
          Error := Some (external_error "AlreadyExists"); ResultObject := 10 |} ]).
Proof. vm_compute. reflexivity. Qed.

(** * Further properties of the code *)

(** ** The apply engine: batches *)

Section ApplyEngineBatches.
Context {World : Type} `{RuntimeClient World}.

(** One-at-a-time application of a concatenation is that of its parts, the
    second part starting in the world the first one leaves. *)
Lemma apply_each_app (xs ys : list Unstructured_ptr) (fm : string) :
  forall w : World,
    apply_each (xs ++ ys) fm w =
      let (r1, w1) := apply_each xs fm w in
      let (r2, w2) := apply_each ys fm w1 in
      (r1 ++ r2, w2).
Proof.
  induction xs as [|x xs IH]; intros w; cbn [app apply_each].
  - unfold ret. destruct (apply_each ys fm w). reflexivity.
  - unfold bind, ret. destruct (ApplyUnstructuredObj x fm w) as [[result err] w1].
    rewrite IH. destruct (apply_each xs fm w1) as [r1 w2].
    destruct (apply_each ys fm w2) as [r2 w3]. reflexivity.
Qed.

(** In every result of one-at-a-time application the flag says whether the
    error is nil. *)
Lemma apply_each_flags (objs : list Unstructured_ptr) (fm : string) :
  forall w : World,
    Forall (fun r => Success r = is_nil (Error r)) (apply_each objs fm w).1.
Proof.
  induction objs as [|obj rest IH]; intros w; cbn [apply_each]; [constructor|].
  unfold bind, ret.
  pose proof (ApplyUnstructuredObj_result obj fm w) as Hres.
  destruct (ApplyUnstructuredObj obj fm w) as [[result err] w1].
  destruct Hres as (Herr & Hflag & _).
  specialize (IH w1). destruct (apply_each rest fm w1) as [results w2].
  cbn [fst] in *. constructor; [rewrite Herr; exact Hflag|exact IH].
Qed.

(** X1. A batch over two lists in a row is the batch over the first list
    followed by the batch over the second in the cluster state the first one
    leaves: the success slices and the failure slices are concatenated, and
    the final state is that of the second batch. *)
Theorem ApplyUnstructuredObjsBatch_app
    (xs ys : list Unstructured_ptr) (fieldManager : string) (w : World) :
  let first := ApplyUnstructuredObjsBatch xs fieldManager w in
  let second := ApplyUnstructuredObjsBatch ys fieldManager first.2 in
  ApplyUnstructuredObjsBatch (xs ++ ys) fieldManager w
  = ((first.1.1 ++ second.1.1, first.1.2 ++ second.1.2), second.2).
Proof.
  cbv zeta. unfold ApplyUnstructuredObjsBatch.
  rewrite (ApplyUnstructuredObjsBatch_loop_spec (xs ++ ys)), apply_each_app.
  rewrite (ApplyUnstructuredObjsBatch_loop_spec xs).
  destruct (apply_each xs fieldManager w) as [r1 w1]. cbn [fst snd].
  rewrite (ApplyUnstructuredObjsBatch_loop_spec ys).
  destruct (apply_each ys fieldManager w1) as [r2 w2]. cbn [fst snd].
  rewrite !app_nil_l, !filter_app. reflexivity.
Qed.

(** X2. Every entry of the success slice is flagged successful and carries
    a nil error, every entry of the failure slice is flagged failed and
    carries an error, and each entry is the result of one of the submitted
    objects. *)
Theorem ApplyUnstructuredObjsBatch_sorts_by_error
    (objs : list Unstructured_ptr) (fieldManager : string) (w : World) :
  let batch := evalState (ApplyUnstructuredObjsBatch objs fieldManager) w in
  Forall (fun r => Success r = true /\ Error r = None /\ ResultObject r ∈ objs) batch.1 /\
  Forall (fun r => Success r = false /\ Error r <> None /\ ResultObject r ∈ objs) batch.2.
Proof.
  cbv zeta. unfold evalState, ApplyUnstructuredObjsBatch.
  rewrite ApplyUnstructuredObjsBatch_loop_spec.
  pose proof (apply_each_objects objs fieldManager w) as Hobjs.
  pose proof (apply_each_flags objs fieldManager w) as Hflags.
  destruct (apply_each objs fieldManager w) as [results w']. cbn [fst snd] in *.
  rewrite !app_nil_l.
  assert (Hmem : forall r, r ∈ results -> ResultObject r ∈ objs).
  { intros r Hr. rewrite <- Hobjs. apply list_elem_of_fmap. exists r. auto. }
  rewrite Forall_forall in Hflags.
  split; apply Forall_forall; intros r Hr; apply list_elem_of_filter in Hr as [Hs Hr];
    specialize (Hflags r Hr); rewrite Hs in Hflags; (split; [exact Hs|]);
    (split; [|exact (Hmem r Hr)]); destruct (Error r); cbn in Hflags; congruence.
Qed.

(** X3. The objects of the success slice and those of the failure slice
    appear in the order of the input, and together they are the input up to
    order: no object is lost and none is reported twice. When the failure
    slice is empty the success slice holds the input objects exactly. *)
Theorem ApplyUnstructuredObjsBatch_keeps_order
    (objs : list Unstructured_ptr) (fieldManager : string) (w : World) :
  let batch := evalState (ApplyUnstructuredObjsBatch objs fieldManager) w in
  sublist (ResultObject <$> batch.1) objs /\
  sublist (ResultObject <$> batch.2) objs /\
  (ResultObject <$> batch.1) ++ (ResultObject <$> batch.2) ≡ₚ objs /\
  (batch.2 = [] -> ResultObject <$> batch.1 = objs).
Proof.
  cbv zeta. unfold evalState, ApplyUnstructuredObjsBatch.
  rewrite ApplyUnstructuredObjsBatch_loop_spec.
  pose proof (apply_each_objects objs fieldManager w) as Hobjs.
  destruct (apply_each objs fieldManager w) as [results w']. cbn [fst snd] in *.
  rewrite !app_nil_l. rewrite <- Hobjs.
  split; [apply fmap_sublist, sublist_filter|].
  split; [apply fmap_sublist, sublist_filter|].
  split.
  - rewrite <- fmap_app. apply fmap_Permutation.
    rewrite (list_filter_iff (fun r => Success r = false)
               (fun r => ~ Success r = true)).
    + apply filter_app_complement.
    + intros r. destruct (Success r); split; congruence.
  - intros Hnone. f_equal.
    assert (Hall : forall i y, results !! i = Some y -> Success y = true).
    { intros i y Hy. destruct (Success y) eqn:Hs; [reflexivity|].
      assert (Hin : y ∈ filter (fun r => Success r = false) results).
      { apply list_elem_of_filter. split; [exact Hs|].
        apply list_elem_of_lookup. exists i. exact Hy. }
      rewrite Hnone in Hin. inversion Hin. }
    apply (filter_all_true Success results Hall).
Qed.

End ApplyEngineBatches.

(** All objects valid: the failure slice is empty and the success slice
    holds the objects as submitted. *)
Lemma ApplyUnstructuredObjsBatch_keeps_order_witness :
  ResultObject <$> (evalState (ApplyUnstructuredObjsBatch [12; 10] "kit")
                      Demo.empty_cluster).1
  = [12; 10].
Proof.
  apply (ApplyUnstructuredObjsBatch_keeps_order [12; 10] "kit" Demo.empty_cluster).
  reflexivity.
Defined.

(** ** The kind resolver: when it fails *)

Section KindResolverOutcomes.
Context {World : Type} `{DiscoveryClient World}.

(** X4. [GvkToGvr] returns a nil error exactly when discovery answered with
    a list that has an entry of the wanted kind. With a nil error the
    reference carries the input's group and version and the name of an entry
    of that kind; with an error the reference is the zero value. *)
Theorem GvkToGvr_succeeds_iff_kind_listed (gvk : schema.GroupVersionKind) (w : World) :
  let discovered :=
    evalState (ServerResourcesForGroupVersion
                 (schema.GroupVersion_String (schema.GroupVersion_of gvk))) w in
  let resolved := evalState (GvkToGvr gvk) w in
  (resolved.2 = None <->
   exists resourcesList resource,
     discovered = inr resourcesList /\
     resource ∈ APIResources resourcesList /\
     res_Kind resource = schema.Kind gvk) /\
  (resolved.2 = None ->
   schema.gvr_Group resolved.1 = schema.Group gvk /\
   schema.gvr_Version resolved.1 = schema.Version gvk /\
   exists resourcesList resource,
     discovered = inr resourcesList /\
     resource ∈ APIResources resourcesList /\
     res_Kind resource = schema.Kind gvk /\
     schema.Resource resolved.1 = Name resource) /\
  (resolved.2 <> None -> resolved.1 = schema.GroupVersionResource_zero).
Proof.
  cbv zeta. unfold evalState, GvkToGvr, bind.
  destruct (ServerResourcesForGroupVersion _ w) as [[err|resourcesList] w1];
    cbn [fst snd].
  - split; [split; [discriminate|intros (? & ? & [=] & _)]|].
    split; [discriminate|reflexivity].
  - rewrite GvkToGvr_scan_find.
    destruct (list_find _ (APIResources resourcesList)) as [[i resource]|] eqn:Hfind;
      cbn [fmap option_fmap option_map fst snd ret].
    + apply list_find_Some in Hfind as (Hi & Hkind & _).
      assert (Hin : resource ∈ APIResources resourcesList)
        by (apply list_elem_of_lookup; exists i; exact Hi).
      split; [split; [intros _; exists resourcesList, resource; auto|reflexivity]|].
      split; [|congruence].
      intros _. cbn. split; [reflexivity|]. split; [reflexivity|].
      exists resourcesList, resource. auto.
    + apply list_find_None in Hfind. rewrite Forall_forall in Hfind.
      split; [split; [discriminate|]|split; [discriminate|reflexivity]].
      intros (rl & resource & [= <-] & Hin & Hkind).
      exfalso. exact (Hfind resource Hin Hkind).
Qed.

End KindResolverOutcomes.

(** A listed kind resolves to a collection of the discovered list. *)
Lemma GvkToGvr_succeeds_iff_kind_listed_witness :
  (evalState (GvkToGvr Demo.deployment) Demo.empty_cluster).2 = None.
Proof.
  apply (GvkToGvr_succeeds_iff_kind_listed Demo.deployment Demo.empty_cluster).
  exists Demo.apps_v1,
    {| Name := "deployments/status"; res_Kind := "Deployment"; Namespaced := true |}.
  split; [reflexivity|]. split; [|reflexivity].
  apply list_elem_of_lookup. exists 2. reflexivity.
Defined.

(** ** The connection manager: what a construction returns *)

Lemma try_call_bind_Ok {A B} (call : LibraryCall) (r : result A) (msg : string)
    (k : A -> Ctor B) (b : B) :
  outcome (ctor_bind (try_call call r msg) k) = Ok b ->
  exists a, r = Ok a /\ outcome (k a) = Ok b.
Proof.
  destruct r as [a|e]; [rewrite try_call_Ok|rewrite try_call_Err]; cbn [outcome snd].
  - intros Hk. exists a. auto.
  - discriminate.
Qed.

Lemma try_call_bind_Err {A B} (call : LibraryCall) (r : result A) (msg : string)
    (k : A -> Ctor B) (e : error) :
  outcome (ctor_bind (try_call call r msg) k) = Err e ->
  (exists cause, r = Err cause /\ e = errors_Wrap cause msg) \/
  (exists a, r = Ok a /\ outcome (k a) = Err e).
Proof.
  destruct r as [a|cause]; [rewrite try_call_Ok|rewrite try_call_Err]; cbn [outcome snd].
  - intros Hk. right. exists a. auto.
  - intros [= <-]. left. exists cause. auto.
Qed.

Lemma try_call_bind_journal {A B} (call : LibraryCall) (r : result A) (msg : string)
    (k : A -> Ctor B) :
  journal (ctor_bind (try_call call r msg) k)
  = call :: match r with Ok a => journal (k a) | Err _ => [] end.
Proof. destruct r; [rewrite try_call_Ok|rewrite try_call_Err]; reflexivity. Qed.

Section ConnectionManagerOutcomes.
Context `{ClientLibraries}.

Lemma ctor_ret_Ok {A} (a b : A) : outcome (ctor_ret a) = Ok b -> a = b.
Proof. intros [= ->]. reflexivity. Qed.

Lemma newGenericK8sClientWithRestConfig_Ok
    (id authType : string) (config : rest.Config) (c : GenericK8sClient) :
  outcome (newGenericK8sClientWithRestConfig id authType config) = Ok c ->
  TargetK8sApiServerId c = id /\ AuthType c = authType /\ kubeConfig c = None /\
  restConfig c = config /\ as_constructed c /\
  exists v, ServerVersion (standardClient c) = Ok v.
Proof.
  unfold newGenericK8sClientWithRestConfig. intros Hok.
  apply try_call_bind_Ok in Hok as (dc & Hdc & Hok).
  apply try_call_bind_Ok in Hok as (sc & Hsc & Hok).
  apply try_call_bind_Ok in Hok as (v & Hv & Hok).
  apply try_call_bind_Ok in Hok as (cl & Hcl & Hok).
  apply ctor_ret_Ok in Hok as <-. unfold as_constructed. cbn.
  repeat split; try reflexivity; try assumption. exists v. exact Hv.
Qed.

Lemma newGenericK8sClientWithKubeConfigObj_Ok
    (id authType : string) (config : clientcmdapi.Config) (c : GenericK8sClient) :
  outcome (newGenericK8sClientWithKubeConfigObj id authType config) = Ok c ->
  TargetK8sApiServerId c = id /\ AuthType c = authType /\ kubeConfig c = Some config /\
  clientcmd_DefaultClientConfig config = Ok (restConfig c) /\ as_constructed c.
Proof.
  unfold newGenericK8sClientWithKubeConfigObj. intros Hok.
  apply try_call_bind_Ok in Hok as (rc & Hrc & Hok).
  apply try_call_bind_Ok in Hok as (dc & Hdc & Hok).
  apply try_call_bind_Ok in Hok as (sc & Hsc & Hok).
  apply try_call_bind_Ok in Hok as (cl & Hcl & Hok).
  apply ctor_ret_Ok in Hok as <-. unfold as_constructed. cbn.
  repeat split; try reflexivity; assumption.
Qed.

(** X5. A client returned by a constructor records how it was made: its id
    is the one given, its auth type names the mode ([TOKEN] for the token and
    the secret-directory constructors, [KUBECONFIG_BYTES], [IN_CLUSTER]), it
    keeps the kubeconfig only in token mode, its two clients and its runtime
    cluster were all made from its own rest config, its scheme mutex is free
    and its manager context is not cancelled. In the two modes that probe,
    the server has answered the version query of the client's own
    clientset. *)
Theorem constructed_client_records_its_mode :
  (forall id apiServerUrl token caPem optionalTLSServerName skipTLSVerify c,
     outcome (NewGenericK8sClientWithToken id apiServerUrl token caPem
                optionalTLSServerName skipTLSVerify) = Ok c ->
     TargetK8sApiServerId c = id /\ AuthType c = "TOKEN" /\
     kubeConfig c = Some (token_kubeconfig apiServerUrl token caPem
                            optionalTLSServerName skipTLSVerify) /\
     as_constructed c) /\
  (forall id authSecretDir apiServerUrl sni c,
     outcome (NewGenericK8sClientWithSecretDir id authSecretDir apiServerUrl sni) = Ok c ->
     TargetK8sApiServerId c = id /\ AuthType c = "TOKEN" /\ as_constructed c) /\
  (forall id kubeConfigBytes overrideSNIServerName c,
     outcome (NewGenericK8sClientWithKubeConfigBytes id kubeConfigBytes
                overrideSNIServerName) = Ok c ->
     TargetK8sApiServerId c = id /\ AuthType c = "KUBECONFIG_BYTES" /\
     kubeConfig c = None /\ as_constructed c /\
     exists v, ServerVersion (standardClient c) = Ok v) /\
  (forall id c,
     outcome (NewGenericK8sClientInCluster id) = Ok c ->
     TargetK8sApiServerId c = id /\ AuthType c = "IN_CLUSTER" /\
     kubeConfig c = None /\ rest_InClusterConfig = Ok (restConfig c) /\
     as_constructed c /\
     exists v, ServerVersion (standardClient c) = Ok v).
Proof.
  split; [|split; [|split]].
  - intros id url token ca sni skip c Hok. unfold NewGenericK8sClientWithToken in Hok.
    apply newGenericK8sClientWithKubeConfigObj_Ok in Hok as (? & ? & ? & _ & ?). auto.
  - intros id dir url sni c Hok. unfold NewGenericK8sClientWithSecretDir in Hok.
    apply try_call_bind_Ok in Hok as (ca & _ & Hok).
    apply try_call_bind_Ok in Hok as (token & _ & Hok).
    unfold NewGenericK8sClientWithToken in Hok.
    apply newGenericK8sClientWithKubeConfigObj_Ok in Hok as (? & ? & _ & _ & ?). auto.
  - intros id bytes sni c Hok. unfold NewGenericK8sClientWithKubeConfigBytes in Hok.
    apply try_call_bind_Ok in Hok as (loader & _ & Hok).
    apply try_call_bind_Ok in Hok as (config & _ & Hok). cbv zeta in Hok.
    apply newGenericK8sClientWithRestConfig_Ok in Hok as (? & ? & ? & _ & ? & ?). auto.
  - intros id c Hok. unfold NewGenericK8sClientInCluster in Hok.
    apply try_call_bind_Ok in Hok as (config & Hconfig & Hok).
    apply newGenericK8sClientWithRestConfig_Ok in Hok as (? & ? & ? & Hrc & ? & ?).
    rewrite Hrc. auto 7.
Qed.






End ConnectionManagerOutcomes.

(** In-cluster construction in front of a server that answers. *)
Lemma constructed_client_records_its_mode_witness :
  exists c,
    outcome (NewGenericK8sClientInCluster (H := Mounted.reachable_server) "c1") = Ok c /\
    AuthType c = "IN_CLUSTER" /\ restConfig c = Demo.mounted_config.
Proof.
  eexists. split; [reflexivity|].
  destruct (constructed_client_records_its_mode (H := Mounted.reachable_server))
    as (_ & _ & _ & Hcluster).
  edestruct (Hcluster "c1") as (_ & Hmode & _); [reflexivity|].
  split; [exact Hmode|reflexivity].
Defined.


Section ConnectionManagerEdges.
Context `{ClientLibraries}.

(** X7. In the two probing modes, once both clients are built and the
    version query fails, the construction returns that failure wrapped as
    the cannot-connect error, and the version query is the last library call
    made: the runtime cluster is not created. *)
Theorem failed_probe_ends_construction :
  (forall id authType config dc sc e,
     dynamic_NewForConfig config = Ok dc ->
     kubernetes_NewForConfig config = Ok sc ->
     ServerVersion sc = Err e ->
     newGenericK8sClientWithRestConfig id authType config
     = ([call_dynamic_NewForConfig; call_kubernetes_NewForConfig; call_ServerVersion],
        Err (errors_Wrap e "无法连接到集群"))) /\
  (forall id config dc sc e,
     rest_InClusterConfig = Ok config ->
     dynamic_NewForConfig config = Ok dc ->
     kubernetes_NewForConfig config = Ok sc ->
     ServerVersion sc = Err e ->
     NewGenericK8sClientInCluster id
     = ([call_InClusterConfig; call_dynamic_NewForConfig; call_kubernetes_NewForConfig;
         call_ServerVersion],
        Err (errors_Wrap e "无法连接到集群"))) /\
  (forall id kubeConfigBytes overrideSNIServerName,
     (forall sc, is_Ok (ServerVersion sc) = false) ->
     call_cluster_New ∉ journal (NewGenericK8sClientWithKubeConfigBytes id kubeConfigBytes
                                   overrideSNIServerName)) /\
  (forall id,
     (forall sc, is_Ok (ServerVersion sc) = false) ->
     call_cluster_New ∉ journal (NewGenericK8sClientInCluster id)).
Proof.
  assert (Hrest : forall id authType config dc sc e,
             dynamic_NewForConfig config = Ok dc ->
             kubernetes_NewForConfig config = Ok sc ->
             ServerVersion sc = Err e ->
             newGenericK8sClientWithRestConfig id authType config
             = ([call_dynamic_NewForConfig; call_kubernetes_NewForConfig;
                 call_ServerVersion],
                Err (errors_Wrap e "无法连接到集群"))).
  { intros id authType config dc sc e Hdc Hsc Hv.
    unfold newGenericK8sClientWithRestConfig.
    rewrite Hdc, try_call_Ok, Hsc, try_call_Ok, Hv, try_call_Err. reflexivity. }
  assert (Hnever : forall id authType config,
             (forall sc, is_Ok (ServerVersion sc) = false) ->
             call_cluster_New ∉ journal (newGenericK8sClientWithRestConfig id authType config)).
  { intros id authType config Hdown. unfold newGenericK8sClientWithRestConfig.
    destruct (dynamic_NewForConfig config) as [dc|e1];
      [rewrite try_call_Ok|rewrite try_call_Err; not_in_journal].
    destruct (kubernetes_NewForConfig config) as [sc|e2];
      [rewrite try_call_Ok|rewrite try_call_Err; not_in_journal].
    specialize (Hdown sc).
    destruct (ServerVersion sc) as [v|e3]; [discriminate Hdown|].
    rewrite try_call_Err. not_in_journal. }
  split; [exact Hrest|]. split; [|split].
  - intros id config dc sc e Hconfig Hdc Hsc Hv. unfold NewGenericK8sClientInCluster.
    rewrite Hconfig, try_call_Ok, (Hrest _ _ _ _ _ _ Hdc Hsc Hv). reflexivity.
  - intros id bytes sni Hdown. unfold NewGenericK8sClientWithKubeConfigBytes.
    rewrite try_call_bind_journal.
    destruct (clientcmd_NewClientConfigFromBytes bytes) as [loader|e0]; [|not_in_journal].
    rewrite try_call_bind_journal.
    destruct (loader_ClientConfig loader) as [config|e1]; [|not_in_journal].
    cbv zeta. intros Hin.
    apply elem_of_cons in Hin as [Hin|Hin]; [discriminate Hin|].
    apply elem_of_cons in Hin as [Hin|Hin]; [discriminate Hin|].
    exact (Hnever _ _ _ Hdown Hin).
  - intros id Hdown. unfold NewGenericK8sClientInCluster.
    rewrite try_call_bind_journal.
    destruct rest_InClusterConfig as [config|e0]; [|not_in_journal].
    intros Hin. apply elem_of_cons in Hin as [Hin|Hin]; [discriminate Hin|].
    exact (Hnever _ _ _ Hdown Hin).
Qed.

(** X8. The TLS server name of a kubeconfig is overridden only by a name of
    at least two bytes (the test is Go's [len], which counts bytes, as
    [String.length] does here): with a name of one byte or none the
    construction is the one without an override; with a name of two bytes or
    more, a single character of two bytes included, a client that is
    returned has that name as the server name of its rest config. *)
Theorem server_name_override_needs_two_bytes
    (id : string) (kubeConfigBytes : list Byte.byte) (overrideSNIServerName : string) :
  (String.length overrideSNIServerName <= 1 ->
   NewGenericK8sClientWithKubeConfigBytes id kubeConfigBytes overrideSNIServerName
   = NewGenericK8sClientWithKubeConfigBytes id kubeConfigBytes "") /\
  (1 < String.length overrideSNIServerName ->
   forall c,
     outcome (NewGenericK8sClientWithKubeConfigBytes id kubeConfigBytes
                overrideSNIServerName) = Ok c ->
     rest.ServerName (restConfig c) = overrideSNIServerName).
Proof.
  unfold NewGenericK8sClientWithKubeConfigBytes, len_gt. split.
  - intros Hshort. rewrite bool_decide_false by lia.
    rewrite (bool_decide_false (1 < String.length "")) by (cbn; lia). reflexivity.
  - intros Hlong c Hok. rewrite bool_decide_true in Hok by exact Hlong.
    apply try_call_bind_Ok in Hok as (loader & _ & Hok).
    apply try_call_bind_Ok in Hok as (config & _ & Hok). cbv zeta in Hok.
    apply newGenericK8sClientWithRestConfig_Ok in Hok as (_ & _ & _ & -> & _).
    reflexivity.
Qed.

End ConnectionManagerEdges.

(** In front of a server that nothing can reach, in-cluster construction
    stops at the version query. *)
Lemma failed_probe_ends_construction_witness :
  NewGenericK8sClientInCluster (H := Demo.unreachable_server) "c1"
  = ([call_InClusterConfig; call_dynamic_NewForConfig; call_kubernetes_NewForConfig;
      call_ServerVersion],
     Err (errors_Wrap Demo.connection_refused "无法连接到集群")).
Proof.
  destruct (failed_probe_ends_construction (H := Demo.unreachable_server))
    as (_ & Hcluster & _).
  apply (Hcluster "c1" Demo.mounted_config Demo.mounted_config Demo.mounted_config);
    reflexivity.
Defined.

(** A one-byte override changes nothing; a longer one is the server name of
    the client's rest config, and so is the one character [é], which is two
    bytes long. *)
Lemma server_name_override_needs_two_bytes_witness :
  NewGenericK8sClientWithKubeConfigBytes (H := Mounted.reachable_server) "c1" [] "k"
  = NewGenericK8sClientWithKubeConfigBytes (H := Mounted.reachable_server) "c1" [] "" /\
  (forall c,
     outcome (NewGenericK8sClientWithKubeConfigBytes (H := Mounted.reachable_server)
                "c1" [] "kube.example.com") = Ok c ->
     rest.ServerName (restConfig c) = "kube.example.com") /\
  (forall c,
     outcome (NewGenericK8sClientWithKubeConfigBytes (H := Mounted.reachable_server)
                "c1" [] "é") = Ok c ->
     rest.ServerName (restConfig c) = "é").
Proof.
  split; [|split].
  - apply (server_name_override_needs_two_bytes (H := Mounted.reachable_server)
             "c1" [] "k"). cbn. lia.
  - apply (server_name_override_needs_two_bytes (H := Mounted.reachable_server)
             "c1" [] "kube.example.com"). cbn. lia.
  - apply (server_name_override_needs_two_bytes (H := Mounted.reachable_server)
             "c1" [] "é"). cbn. lia.
Defined.

(** [strings.TrimSuffix] takes one trailing slash off, and only one. *)
Lemma TrimSuffix_slash_app (s : string) : TrimSuffix_slash (s +:+ "/") = s.
Proof.
  induction s as [|c s IH]; [reflexivity|].
  change (String c s +:+ "/") with (String c (s +:+ "/")).
  cbn [TrimSuffix_slash]. rewrite IH.
  destruct s; reflexivity.
Qed.

Lemma TrimSuffix_slash_id (s : string) :
  (forall t, s <> t +:+ "/") -> TrimSuffix_slash s = s.
Proof.
  induction s as [|c s IH]; intros Hend; [reflexivity|].
  cbn [TrimSuffix_slash]. destruct s as [|c' s'].
  - case_bool_decide as Hc; [|reflexivity].
    subst c. exfalso. exact (Hend "" eq_refl).
  - rewrite IH; [reflexivity|].
    intros t Ht. apply (Hend (String c t)). rewrite Ht. reflexivity.
Qed.

Section SecretDirectory.
Context `{ClientLibraries}.

(** X9. The secret-directory constructor takes one trailing slash off the
    directory, reads [ca.crt] first and [token] second, and goes on to the
    token constructor, with certificate verification on, only when both files
    were read: a failed read is the last thing it does, and no client
    library is called after it. A directory without trailing slash gives the
    same construction as the directory with one. When the token file cannot
    be read, the message of the error names the directory and [token] with
    no slash between them. *)
Theorem secret_directory_is_read_before_anything_else
    (id dir apiServerUrl sni : string) :
  let built := NewGenericK8sClientWithSecretDir id (dir +:+ "/") apiServerUrl sni in
  (forall e,
     os_ReadFile (dir +:+ "/ca.crt") = Err e ->
     built = ([call_ReadFile (dir +:+ "/ca.crt")],
              Err (errors_Wrap e ("无法读取CA Cert文件:" +:+ dir +:+ "/ca.crt")))) /\
  (forall caCert e,
     os_ReadFile (dir +:+ "/ca.crt") = Ok caCert ->
     os_ReadFile (dir +:+ "/token") = Err e ->
     built = ([call_ReadFile (dir +:+ "/ca.crt"); call_ReadFile (dir +:+ "/token")],
              Err (errors_Wrap e ("无法读取Token文件:" +:+ dir +:+ "token")))) /\
  (forall caCert token,
     os_ReadFile (dir +:+ "/ca.crt") = Ok caCert ->
     os_ReadFile (dir +:+ "/token") = Ok token ->
     let next :=
       NewGenericK8sClientWithToken id apiServerUrl (String.string_of_list_byte token)
         caCert sni false in
     built = (call_ReadFile (dir +:+ "/ca.crt") :: call_ReadFile (dir +:+ "/token")
                :: journal next,
              outcome next)) /\
  ((forall t, dir <> t +:+ "/") ->
   NewGenericK8sClientWithSecretDir id dir apiServerUrl sni = built).
Proof.
  cbv zeta. unfold NewGenericK8sClientWithSecretDir. rewrite TrimSuffix_slash_app.
  split; [|split; [|split]].
  - intros e Hca. rewrite Hca, try_call_Err. reflexivity.
  - intros ca e Hca Htoken. rewrite Hca, try_call_Ok, Htoken, try_call_Err. reflexivity.
  - intros ca token Hca Htoken. rewrite Hca, try_call_Ok, Htoken, try_call_Ok. reflexivity.
  - intros Hend. rewrite (TrimSuffix_slash_id dir Hend). reflexivity.
Qed.

(** X10. The kubeconfig that token mode prepares is self-contained: its
    current context exists, and the cluster and the user that the context
    names exist too; the cluster carries the server address, the CA bundle,
    the TLS server name and the skip-verify flag as given, the user carries
    the bearer token and no client certificate or key, and there is nothing
    else in the document. *)
Theorem token_kubeconfig_is_self_contained
    (apiServerUrl token : string) (caPem : list Byte.byte)
    (optionalTLSServerName : string) (skipTLSVerify : bool) :
  let config :=
    token_kubeconfig apiServerUrl token caPem optionalTLSServerName skipTLSVerify in
  exists context cluster user,
    clientcmdapi.Contexts config !! clientcmdapi.CurrentContext config = Some context /\
    clientcmdapi.Clusters config !! clientcmdapi.ctx_Cluster context = Some cluster /\
    clientcmdapi.AuthInfos config !! clientcmdapi.ctx_AuthInfo context = Some user /\
    cluster = {| clientcmdapi.Server := apiServerUrl;
                 clientcmdapi.TLSServerName := optionalTLSServerName;
                 clientcmdapi.InsecureSkipTLSVerify := skipTLSVerify;
                 clientcmdapi.CertificateAuthorityData := caPem |} /\
    user = {| clientcmdapi.ClientCertificateData := [];
              clientcmdapi.ClientKeyData := [];
              clientcmdapi.Token := token |} /\
    clientcmdapi.ctx_Namespace context = "default" /\
    size (clientcmdapi.Contexts config) = 1 /\
    size (clientcmdapi.Clusters config) = 1 /\
    size (clientcmdapi.AuthInfos config) = 1.
Proof.
  cbv zeta. unfold token_kubeconfig, clientcmdapi.NewConfig.
  cbn [clientcmdapi.Contexts clientcmdapi.Clusters clientcmdapi.AuthInfos
       clientcmdapi.CurrentContext].
  eexists _, _, _.
  split; [apply lookup_insert_eq|].
  cbn [clientcmdapi.ctx_Cluster clientcmdapi.ctx_AuthInfo clientcmdapi.ctx_Namespace].
  split; [apply lookup_insert_eq|]. split; [apply lookup_insert_eq|].
  split; [reflexivity|]. split; [reflexivity|]. split; [reflexivity|].
  rewrite !map_size_insert_None by apply lookup_empty.
  rewrite !map_size_empty. auto.
Qed.

End SecretDirectory.

(** A mounted secret directory, named with its trailing slash: both files
    are read and the token constructor takes over. *)
Lemma secret_directory_is_read_before_anything_else_witness :
  NewGenericK8sClientWithSecretDir (H := Mounted.reachable_server) "c1"
    "/var/run/secrets/" "https://10.96.0.1:443" ""
  = (call_ReadFile "/var/run/secrets/ca.crt" :: call_ReadFile "/var/run/secrets/token"
       :: journal (NewGenericK8sClientWithToken (H := Mounted.reachable_server) "c1"
                     "https://10.96.0.1:443" "tok" Mounted.ca_bytes "" false),
     outcome (NewGenericK8sClientWithToken (H := Mounted.reachable_server) "c1"
                "https://10.96.0.1:443" "tok" Mounted.ca_bytes "" false)).
Proof.
  destruct (secret_directory_is_read_before_anything_else
              (H := Mounted.reachable_server) "c1" "/var/run/secrets"
              "https://10.96.0.1:443" "") as (_ & _ & Hboth & _).
  apply (Hboth Mounted.ca_bytes Mounted.token_bytes); vm_compute; reflexivity.
Defined.

(** ** Scheme registration: many calls *)

(** Calls for a version that is registered run no callback and leave the
    scheme as it is, however many they are. *)
Lemma AddScheme_repeat_registered (n : nat) (gv : schema.GroupVersion) (f : AddSchemeFunc) :
  forall c : SchemeRegistry,
    held (lock c) = false ->
    runtime.IsVersionRegistered (scheme c) gv = true ->
    exists c',
      AddScheme_repeat n gv f c = Some c' /\ scheme c' = scheme c /\
      held (lock c') = false /\ executions gv (steps c') = executions gv (steps c).
Proof.
  induction n as [|n IH]; intros c Hfree Hreg; cbn [AddScheme_repeat].
  - exists c. auto.
  - rewrite (AddScheme_steps gv f c Hfree), Hreg.
    edestruct IH as (c' & Hrun & Hscheme & Hlock & Hcount);
      [| |exists c'; split; [exact Hrun|]].
    + reflexivity.
    + exact Hreg.
    + split; [exact Hscheme|]. split; [exact Hlock|].
      rewrite Hcount. cbn [steps]. rewrite !executions_app. cbn.
      rewrite !decide_False by discriminate. cbn. lia.
Qed.

(** X11. However many times [AddScheme] is called in a row for one
    group/version that was not registered, with a callback that registers
    it, the callback runs exactly once, in the first call; the scheme after
    the last call is the one the callback made, and the mutex is free
    again. *)
Theorem AddScheme_repeat_registers_once
    (n : nat) (gv : schema.GroupVersion) (f : AddSchemeFunc) (c : SchemeRegistry) :
  held (lock c) = false ->
  runtime.IsVersionRegistered (scheme c) gv = false ->
  runtime.IsVersionRegistered (f (scheme c)).1 gv = true ->
  exists c',
    AddScheme_repeat (S n) gv f c = Some c' /\
    scheme c' = (f (scheme c)).1 /\
    held (lock c') = false /\
    executions gv (steps c') = executions gv (steps c) + 1.
Proof.
  intros Hfree Hnew Hreg. cbn [AddScheme_repeat].
  rewrite (AddScheme_steps gv f c Hfree), Hnew.
  edestruct (AddScheme_repeat_registered n gv f) as (c' & Hrun & Hscheme & Hlock & Hcount);
    [| |exists c'; split; [exact Hrun|]].
  - reflexivity.
  - exact Hreg.
  - split; [exact Hscheme|]. split; [exact Hlock|].
    rewrite Hcount. cbn [steps]. rewrite !executions_app, executions_one. cbn.
    rewrite !decide_False by discriminate. cbn. lia.
Qed.

(** X12. A callback that never registers the group/version it is called
    for (one written for another API package, or one that fails first) is
    run by every call: [n] calls in a row run it [n] times, each on the
    scheme the previous run left, and the group/version is still not
    registered at the end. *)
Theorem AddScheme_repeat_reruns_a_mismatched_callback
    (n : nat) (gv : schema.GroupVersion) (f : AddSchemeFunc) (c : SchemeRegistry) :
  held (lock c) = false ->
  runtime.IsVersionRegistered (scheme c) gv = false ->
  (forall s, runtime.IsVersionRegistered s gv = false ->
             runtime.IsVersionRegistered (f s).1 gv = false) ->
  exists c',
    AddScheme_repeat n gv f c = Some c' /\
    scheme c' = Nat.iter n (fun s => (f s).1) (scheme c) /\
    runtime.IsVersionRegistered (scheme c') gv = false /\
    held (lock c') = false /\
    executions gv (steps c') = executions gv (steps c) + n.
Proof.
  intros Hfree Hnew Hnever. revert c Hfree Hnew.
  induction n as [|n IH]; intros c Hfree Hnew; cbn [AddScheme_repeat].
  - exists c. cbn. repeat split; auto.
  - rewrite (AddScheme_steps gv f c Hfree), Hnew.
    edestruct IH as (c' & Hrun & Hscheme & Hstill & Hlock & Hcount);
      [| |exists c'; split; [exact Hrun|]].
    + reflexivity.
    + cbn [scheme]. apply Hnever. exact Hnew.
    + cbn [scheme steps] in *. split.
      { rewrite Hscheme, Nat.iter_succ_r. reflexivity. }
      split; [exact Hstill|]. split; [exact Hlock|].
      rewrite Hcount, !executions_app, executions_one. cbn.
      rewrite !decide_False by discriminate. cbn. lia.
Qed.

(** Five calls with a callback that registers the version. *)
Lemma AddScheme_repeat_registers_once_witness :
  exists c',
    AddScheme_repeat 5 Demo.widgets_v1 (Demo.AddToScheme Demo.widgets_v1)
      Demo.fresh_registry = Some c' /\
    executions Demo.widgets_v1 (steps c') = 1.
Proof.
  destruct (AddScheme_repeat_registers_once 4 Demo.widgets_v1
              (Demo.AddToScheme Demo.widgets_v1) Demo.fresh_registry)
    as (c' & Hrun & _ & _ & Hcount).
  - reflexivity.
  - reflexivity.
  - vm_compute. reflexivity.
  - exists c'. split; [exact Hrun|exact Hcount].
Defined.

(** Three calls for one group/version with the callback of another. *)
Lemma AddScheme_repeat_reruns_a_mismatched_callback_witness :
  exists c',
    AddScheme_repeat 3 Demo.widgets_v1 (Demo.AddToScheme Mounted.gadgets_v1)
      Demo.fresh_registry = Some c' /\
    executions Demo.widgets_v1 (steps c') = 3.
Proof.
  destruct (AddScheme_repeat_reruns_a_mismatched_callback 3 Demo.widgets_v1
              (Demo.AddToScheme Mounted.gadgets_v1) Demo.fresh_registry)
    as (c' & Hrun & _ & _ & _ & Hcount).
  - reflexivity.
  - reflexivity.
  - intros [observed] Hnot. unfold runtime.IsVersionRegistered in *. cbn in *.
    induction observed as [|v observed IH]; cbn in *.
    + vm_compute. reflexivity.
    + destruct (bool_decide (v = Demo.widgets_v1)); [discriminate Hnot|].
      exact (IH Hnot).
  - exists c'. split; [exact Hrun|exact Hcount].
Defined.

(** ** The resource watcher: lookups and what a run keeps *)

Section WatcherLookups.
Context {Client App : Type}.

(** The key [GetObject] composes from an object's namespace and name is the
    key the store files the object under. *)
Lemma GetObject_key_of_object (obj : Object) :
  GetObject_key (obj_namespace obj) (obj_name obj) = cache.MetaNamespaceKeyFunc obj.
Proof. reflexivity. Qed.

(** X13. [GetObject] never finds anything. For every watcher, whatever it
    has observed, and every namespace and name, the call answers no object,
    [exists = false] and a key error that carries the composed key, a plain
    string, and the store's no-metadata error. This is so also right after
    the watcher observed an object added or modified, when the store holds
    that object under the very key [GetObject] composes from the object's
    namespace and name, as a lookup by key shows. *)
Theorem GetObject_never_finds
    (w : K8sResourceWatcher Client App) (app : App) (obj : Object)
    (namespace name : string) :
  GetObject w namespace name
    = (None, false,
       Some (KeyError (any_string (GetObject_key namespace name))
               cache.object_has_no_meta)) /\
  cache.GetByKey (inf_store (informer (deliver (Added obj) (w, app)).1))
    (GetObject_key (obj_namespace obj) (obj_name obj))
    = (Some obj, true, None) /\
  cache.GetByKey (inf_store (informer (deliver (Modified obj) (w, app)).1))
    (GetObject_key (obj_namespace obj) (obj_name obj))
    = (Some obj, true, None) /\
  cache.GetByKey (inf_store (informer (deliver (Deleted obj) (w, app)).1))
    (GetObject_key (obj_namespace obj) (obj_name obj))
    = (None, false, None).
Proof.
  split; [apply Get_of_a_string|].
  unfold cache.GetByKey. rewrite !deliver_store. cbn [apply_event].
  rewrite GetObject_key_of_object, !lookup_insert_eq, lookup_delete_eq. auto.
Qed.

(** X14. The lookup key is the plain concatenation of namespace, slash and
    name, so a lookup with the empty namespace and a name that contains a
    slash reads the entry of the namespaced object of that key: for a
    non-empty namespace, looking up [namespace/name] as a bare name answers
    what looking up the name in the namespace answers. *)
Theorem GetObject_bare_name_with_slash
    (w : K8sResourceWatcher Client App) (namespace name : string) :
  namespace <> "" ->
  GetObject w "" (namespace +:+ "/" +:+ name) = GetObject w namespace name.
Proof.
  intros Hns. unfold GetObject, GetObject_key. rewrite !len_gt_0.
  rewrite bool_decide_false by (intros Hne; apply Hne; reflexivity).
  rewrite bool_decide_true by exact Hns. reflexivity.
Qed.

(** No step of a run changes a watcher field other than the informer's store
    and handler list. *)
Lemma step_keeps_fields (s : WatcherStep App) (st : K8sResourceWatcher Client App * App) :
  Gvr (step s st).1 = Gvr st.1 /\
  Namespace (step s st).1 = Namespace st.1 /\
  lister (step s st).1 = lister st.1 /\
  stop (step s st).1 = stop st.1 /\
  inf_client (informer (step s st).1) = inf_client (informer st.1) /\
  inf_resource (informer (step s st).1) = inf_resource (informer st.1) /\
  inf_namespace (informer (step s st).1) = inf_namespace (informer st.1) /\
  inf_resync (informer (step s st).1) = inf_resync (informer st.1) /\
  inf_indexers (informer (step s st).1) = inf_indexers (informer st.1).
Proof.
  destruct st as [w app]. destruct s as [a d u|ns|ns name|e|i]; cbn [step fst snd].
  - cbn. auto 10.
  - cbn. auto 10.
  - cbn. auto 10.
  - unfold deliver. destruct (classify e (inf_store (informer w))); cbn; auto 10.
  - unfold run_listener.
    destruct (inf_listeners (informer w) !! i) as [l|]; [|cbn; auto 10].
    destruct (pendingNotifications l); cbn; auto 10.
Qed.

(** X15. A watcher keeps what it was built with through any run: its
    [Namespace], and the client, resource, namespace scope, resync period
    and indexer set of its informer, stay those of the construction; its
    lister is for the resource given. Its [Gvr] field, which the constructor
    never sets, is the zero value throughout and not the resource given. *)
Theorem watcher_keeps_its_construction
    (client : Client) (resource : schema.GroupVersionResource) (namespace : string)
    (resync : Z) (indexers : gmap string cache.IndexFunc)
    (listOptionsFunc : option (ListOptions -> ListOptions))
    (steps : list (WatcherStep App)) (app : App) :
  let w :=
    (run steps
       (NewDynamicWatcher client resource namespace resync indexers listOptionsFunc,
        app)).1 in
  Gvr w = schema.GroupVersionResource_zero /\
  Namespace w = namespace /\
  lister_resource (lister w) = resource /\
  inf_client (informer w) = client /\
  inf_resource (informer w) = resource /\
  inf_namespace (informer w) = namespace /\
  inf_resync (informer w) = resync /\
  inf_indexers (informer w) = NewDynamicWatcher_indexers indexers.
Proof.
  cbv zeta.
  set (w0 := NewDynamicWatcher client resource namespace resync indexers listOptionsFunc).
  assert (Hkeep : forall st : K8sResourceWatcher Client App * App,
             let w := (run steps st).1 in
             Gvr w = Gvr st.1 /\ Namespace w = Namespace st.1 /\
             lister w = lister st.1 /\
             inf_client (informer w) = inf_client (informer st.1) /\
             inf_resource (informer w) = inf_resource (informer st.1) /\
             inf_namespace (informer w) = inf_namespace (informer st.1) /\
             inf_resync (informer w) = inf_resync (informer st.1) /\
             inf_indexers (informer w) = inf_indexers (informer st.1)).
  { induction steps as [|s rest IH]; intros st; cbv zeta; [cbn; auto 10|].
    cbn [run foldl]. fold (run rest (step s st)).
    destruct (IH (step s st)) as (-> & -> & -> & -> & -> & -> & -> & ->).
    destruct (step_keeps_fields s st) as (? & ? & ? & _ & ? & ? & ? & ? & ?). auto 10. }
  destruct (Hkeep (w0, app)) as (-> & -> & -> & -> & -> & -> & -> & ->).
  cbn. auto 10.
Qed.



End WatcherLookups.

(** A bare-name lookup of [team-a/web] answers the namespaced object. *)
Lemma GetObject_bare_name_with_slash_witness :
  GetObject (deliver (Added Demo.web) (Demo.watcher, [])).1 "" "team-a/web"
  = GetObject (deliver (Added Demo.web) (Demo.watcher, [])).1 "team-a" "web".
Proof.
  apply (GetObject_bare_name_with_slash
           (deliver (Added Demo.web) (Demo.watcher, [])).1 "team-a" "web").
  discriminate.
Defined.

(** The store after a short history, read by key, and what [GetObject]
    answers for the same objects. *)
Example lookups_after_a_run :
  let w := (run [observe (Added Demo.web); observe (Added Mounted.node1);
                 observe (Added Mounted.db); observe (Modified Demo.web');
                 observe (Deleted Mounted.db)] (Demo.watcher, [])).1 in
  cache.GetByKey (inf_store (informer w)) "team-a/web" = (Some Demo.web', true, None) /\
  cache.GetByKey (inf_store (informer w)) "node-1" = (Some Mounted.node1, true, None) /\
  cache.GetByKey (inf_store (informer w)) "team-a/db" = (None, false, None) /\
  GetObject w "team-a" "web"
    = (None, false, Some (KeyError (any_string "team-a/web") cache.object_has_no_meta)) /\
  GetObject w "" "node-1"
    = (None, false, Some (KeyError (any_string "node-1") cache.object_has_no_meta)) /\
  Gvr w = schema.GroupVersionResource_zero.
Proof. vm_compute. auto 10. Qed.

(** ** The connection manager: library calls without a probe *)

Section TokenModeCalls.
Context `{ClientLibraries}.

(** X17. A token-mode construction that returns a client has made exactly
    four library calls, in this order: the rest config from the kubeconfig,
    the dynamic client, the standard client, the runtime cluster. The
    secret-directory constructor, which ends in token mode, never queries
    the server version either, whether it succeeds or fails, and when it
    returns a client it has made the two file reads followed by those four
    calls. *)
Theorem token_mode_library_calls :
  (forall id apiServerUrl token caPem optionalTLSServerName skipTLSVerify,
     let built := NewGenericK8sClientWithToken id apiServerUrl token caPem
                    optionalTLSServerName skipTLSVerify in
     is_Ok (outcome built) = true ->
     journal built = [call_DefaultClientConfig; call_dynamic_NewForConfig;
                      call_kubernetes_NewForConfig; call_cluster_New]) /\
  (forall id authSecretDir apiServerUrl sni,
     let built := NewGenericK8sClientWithSecretDir id authSecretDir apiServerUrl sni in
     (call_ServerVersion ∉ journal built) /\
     (is_Ok (outcome built) = true ->
      journal built
      = [call_ReadFile (TrimSuffix_slash authSecretDir +:+ "/ca.crt");
         call_ReadFile (TrimSuffix_slash authSecretDir +:+ "/token");
         call_DefaultClientConfig; call_dynamic_NewForConfig;
         call_kubernetes_NewForConfig; call_cluster_New])).
Proof.
  assert (Hobj : forall id authType config,
             is_Ok (outcome (newGenericK8sClientWithKubeConfigObj id authType config)) = true ->
             journal (newGenericK8sClientWithKubeConfigObj id authType config)
             = [call_DefaultClientConfig; call_dynamic_NewForConfig;
                call_kubernetes_NewForConfig; call_cluster_New]).
  { intros id authType config. unfold newGenericK8sClientWithKubeConfigObj.
    destruct (clientcmd_DefaultClientConfig config) as [rc|e0];
      [rewrite try_call_Ok|rewrite try_call_Err; discriminate].
    destruct (dynamic_NewForConfig rc) as [dc|e1];
      [rewrite try_call_Ok|rewrite try_call_Err; discriminate].
    destruct (kubernetes_NewForConfig rc) as [sc|e2];
      [rewrite try_call_Ok|rewrite try_call_Err; discriminate].
    destruct (cluster_New rc) as [cl|e3];
      [rewrite try_call_Ok|rewrite try_call_Err; discriminate].
    reflexivity. }
  split.
  - intros id url token ca sni skip. cbv zeta. apply Hobj.
  - intros id dir url sni. cbv zeta. unfold NewGenericK8sClientWithSecretDir.
    destruct (os_ReadFile (TrimSuffix_slash dir +:+ "/ca.crt")) as [ca|e0];
      [rewrite try_call_Ok|rewrite try_call_Err; split; [not_in_journal|discriminate]].
    destruct (os_ReadFile (TrimSuffix_slash dir +:+ "/token")) as [token|e1];
      [rewrite try_call_Ok|rewrite try_call_Err; split; [not_in_journal|discriminate]].
    unfold NewGenericK8sClientWithToken. cbn [journal outcome fst snd].
    split.
    + intros Hin.
      apply elem_of_cons in Hin as [Hin|Hin]; [discriminate Hin|].
      apply elem_of_cons in Hin as [Hin|Hin]; [discriminate Hin|].
      revert Hin.
      apply (newGenericK8sClientWithKubeConfigObj_no_probe id AuthTypeToken).
    + intros Hok. fold (journal (newGenericK8sClientWithKubeConfigObj id AuthTypeToken
        (token_kubeconfig url (String.string_of_list_byte token) ca sni false))).
      rewrite Hobj by exact Hok. reflexivity.
Qed.

End TokenModeCalls.

(** The calls of a construction from the mounted secret directory. *)
Lemma token_mode_library_calls_witness :
  journal (NewGenericK8sClientWithSecretDir (H := Mounted.reachable_server) "c1"
             "/var/run/secrets" "https://10.96.0.1:443" "")
  = [call_ReadFile "/var/run/secrets/ca.crt"; call_ReadFile "/var/run/secrets/token";
     call_DefaultClientConfig; call_dynamic_NewForConfig;
     call_kubernetes_NewForConfig; call_cluster_New].
Proof.
  destruct (token_mode_library_calls (H := Mounted.reachable_server)) as [_ Hdir].
  destruct (Hdir "c1" "/var/run/secrets" "https://10.96.0.1:443" "") as [_ Hcalls].
  apply Hcalls. vm_compute. reflexivity.
Defined.
